(** * PMO status report: the report-synthesis core of [jira_pmo_status_report.py]

    A shallow embedding of the pure part of the script (field access, record
    classification, root resolution, date formatting and report rendering)
    together with the properties of the specification that concern it.

    Python values are embedded as they arrive from [json.loads]; exceptions
    are explicit results; the few library functions the script calls without
    defining them (Unicode case mapping, the ISO parser, the zone database)
    are the fields of the class [Python]. *)

From Stdlib Require Import ZArith NArith List String Ascii.
From stdpp Require Import base decidable option list gmap pretty.

Local Open Scope list_scope.
Set Warnings "-register-all".

(** ** Text *)

(** A Python [str] is a sequence of Unicode code points. *)
Abbreviation char := N (only parsing).
Abbreviation str := (list N) (only parsing).

Module Text.

(** Literals are written as Rocq strings, whose bytes are the UTF-8 encoding
    of the source text; [utf8] decodes them into code points. *)
Fixpoint utf8 (bs : list N) : str :=
  match bs with
  | [] => []
  | b :: rest =>
      if (b <? 128)%N then b :: utf8 rest
      else if (b <? 224)%N then
        match rest with
        | c1 :: r => ((b - 192) * 64 + (c1 - 128))%N :: utf8 r
        | _ => []
        end
      else if (b <? 240)%N then
        match rest with
        | c1 :: c2 :: r =>
            ((b - 224) * 4096 + (c1 - 128) * 64 + (c2 - 128))%N :: utf8 r
        | _ => []
        end
      else
        match rest with
        | c1 :: c2 :: c3 :: r =>
            ((b - 240) * 262144 + (c1 - 128) * 4096
             + (c2 - 128) * 64 + (c3 - 128))%N :: utf8 r
        | _ => []
        end
  end.

Definition u (s : string) : str :=
  utf8 (map N_of_ascii (list_ascii_of_string s)).

(** [s.startswith(p)] *)
Fixpoint startswith (p s : str) : bool :=
  match p, s with
  | [], _ => true
  | a :: p', b :: s' => (a =? b)%N && startswith p' s'
  | _ :: _, [] => false
  end.

(** [s.endswith(p)] *)
Definition endswith (p s : str) : bool := startswith (rev p) (rev s).

(** [p in s] for two strings: [p] occurs in [s] as a substring. *)
Fixpoint occurs (p s : str) : bool :=
  startswith p s || match s with [] => false | _ :: s' => occurs p s' end.

(** [s.replace(old, new)] for a non-empty [old]: every occurrence, left to
    right, without overlap.  [skip] counts the characters of an occurrence
    that was just replaced and are still to be passed over. *)
Fixpoint replace_from (old new : str) (skip : nat) (s : str) : str :=
  match s with
  | [] => []
  | c :: s' =>
      match skip with
      | S k => replace_from old new k s'
      | O =>
          if startswith old s
          then new ++ replace_from old new (pred (length old)) s'
          else c :: replace_from old new 0 s'
      end
  end.

Definition replace (old new s : str) : str := replace_from old new 0 s.

Fixpoint dropwhile (p : char -> bool) (s : str) : str :=
  match s with
  | [] => []
  | c :: s' => if p c then dropwhile p s' else s
  end.

Definition lstrip_by (p : char -> bool) (s : str) : str := dropwhile p s.
Definition rstrip_by (p : char -> bool) (s : str) : str :=
  rev (dropwhile p (rev s)).
Definition strip_by (p : char -> bool) (s : str) : str :=
  rstrip_by p (lstrip_by p s).

Definition char_in (chars : str) (c : char) : bool :=
  existsb (N.eqb c) chars.

(** [s.strip(chars)] *)
Definition strip_chars (chars s : str) : str := strip_by (char_in chars) s.

(** [sep.join(parts)] on strings. *)
Fixpoint join (sep : str) (parts : list str) : str :=
  match parts with
  | [] => []
  | [p] => p
  | p :: rest => p ++ sep ++ join sep rest
  end.

(** The empty string, as a line of the report. *)
Definition blank : str := [].

(** [str(z)] for an integer. *)
Definition decimal (z : Z) : str :=
  map N_of_ascii (list_ascii_of_string (pretty z)).

End Text.
Import Text.

Arguments u : simpl never.

(** ** Python values and exceptions *)

(** What [json.loads] produces.  A float is represented by the two things the
    script can observe of it, its truth value and its [str()]; a [dict] by its
    items, read with first-match lookup. *)
Inductive value : Type :=
  | VNone
  | VBool (b : bool)
  | VInt (z : Z)
  | VFloat (nonzero : bool) (text : str)
  | VStr (s : str)
  | VList (l : list value)
  | VDict (d : list (str * value)).

Abbreviation pydict := (list (str * value)) (only parsing).

Inductive exn : Type := AttributeError | TypeError | KeyError.

Inductive result (A : Type) : Type :=
  | Ok (a : A)
  | Raise (e : exn).
Arguments Ok {A} a.
Arguments Raise {A} e.

Definition bind {A B} (r : result A) (k : A -> result B) : result B :=
  match r with
  | Ok a => k a
  | Raise e => Raise e
  end.

Declare Scope py_scope.
Delimit Scope py_scope with py.
Notation "'let!' x := r 'in' k" := (bind r (fun x => k))
  (at level 10, x name, r at level 100, k at level 200) : py_scope.
Notation "'let!' ' p := r 'in' k" :=
  (bind r (fun x => match x with p => k end))
  (at level 10, p strict pattern, r at level 100, k at level 200) : py_scope.
Local Open Scope py_scope.

(** A comprehension [[x for x in l if p(x)]] whose test may raise. *)
Fixpoint filterM {A} (p : A -> result bool) (l : list A) : result (list A) :=
  match l with
  | [] => Ok []
  | x :: l' =>
      let! b := p x in
      let! rest := filterM p l' in
      Ok (if b then x :: rest else rest)
  end.

(** A [for] loop over [l] that updates an accumulator and may raise. *)
Fixpoint foldM {A S} (body : S -> A -> result S) (s : S) (l : list A)
  : result S :=
  match l with
  | [] => Ok s
  | x :: l' => let! s' := body s x in foldM body s' l'
  end.

(** Truth value of an object, as [if v], [not v] and [or] see it. *)
Definition truthy (v : value) : bool :=
  match v with
  | VNone => false
  | VBool b => b
  | VInt z => negb (z =? 0)%Z
  | VFloat nonzero _ => nonzero
  | VStr s => negb (bool_decide (s = []))
  | VList l => negb (bool_decide (length l = 0))
  | VDict d => negb (bool_decide (length d = 0))
  end.

(** [a or b] once both operands are evaluated. *)
Definition por (a b : value) : value := if truthy a then a else b.

Fixpoint lookup_item (d : pydict) (k : str) : option value :=
  match d with
  | [] => None
  | (k', v) :: d' => if bool_decide (k' = k) then Some v else lookup_item d' k
  end.

(** [k in d] and [d.get(k)], [d.get(k, dflt)] on a dict. *)
Definition has_key (d : pydict) (k : str) : bool :=
  bool_decide (is_Some (lookup_item d k)).
Definition get_or (d : pydict) (k : str) (dflt : value) : value :=
  default dflt (lookup_item d k).
Definition get (d : pydict) (k : str) : value := get_or d k VNone.

(** [v.get(k)] and [v.get(k, dflt)] on an arbitrary object: only a dict has
    the method. *)
Definition call_get_or (v : value) (k : str) (dflt : value) : result value :=
  match v with
  | VDict d => Ok (get_or d k dflt)
  | _ => Raise AttributeError
  end.
Definition call_get (v : value) (k : str) : result value :=
  call_get_or v k VNone.

(** [dict] literal [{}]. *)
Definition empty_dict : value := VDict [].
Definition empty_str : value := VStr [].

(** ** The Python runtime *)

(** Library functions the script calls and does not define.  [ZoneInfo] is
    [None] when the [zoneinfo] import at the top of the script failed; an
    [option] result is [None] when the call raises (every such call sits
    inside the [try] of [fmt_date], which catches any [Exception]). *)
Class Python : Type := {
  lower : str -> str;                         (* str.lower() *)
  isspace : char -> bool;                     (* whitespace, as strip() sees it *)
  repr : value -> str;                        (* repr() of a list or a dict *)
  datetime : Type;
  tzinfo : Type;
  fromisoformat : str -> option datetime;     (* datetime.fromisoformat *)
  ZoneInfo : option (str -> option tzinfo);   (* zoneinfo.ZoneInfo *)
  astimezone : datetime -> tzinfo -> option datetime;
  strftime : datetime -> str -> option str;
}.

Section Script.

Context `{Python}.

(** [s.strip()] and [s.rstrip()] *)
Definition strip (s : str) : str := strip_by isspace s.
Definition rstrip (s : str) : str := rstrip_by isspace s.

(** [str(v)], which is also how an f-string renders [{v}]. *)
Definition str_of (v : value) : str :=
  match v with
  | VNone => u "None"
  | VBool true => u "True"
  | VBool false => u "False"
  | VInt z => decimal z
  | VFloat _ text => text
  | VStr s => s
  | VList _ | VDict _ => repr v
  end.

(** [v.strip()] on an arbitrary object. *)
Definition call_strip (v : value) : result str :=
  match v with
  | VStr s => Ok (strip s)
  | _ => Raise AttributeError
  end.

(** [key in f] for a string [key]: keys of a dict, elements of a list,
    substrings of a string; other objects are not containers. *)
Definition contains (f : value) (key : str) : result bool :=
  match f with
  | VDict d => Ok (has_key d key)
  | VList l =>
      Ok (existsb (fun x => match x with
                            | VStr s => bool_decide (s = key)
                            | _ => false
                            end) l)
  | VStr s => Ok (occurs key s)
  | _ => Raise TypeError
  end.

(** [sep.join(parts)]: every part has to be a [str]. *)
Fixpoint join_values (sep : str) (parts : list value) : result str :=
  match parts with
  | [] => Ok []
  | VStr p :: rest =>
      match rest with
      | [] => Ok p
      | _ => let! tail := join_values sep rest in Ok (p ++ sep ++ tail)
      end
  | _ :: _ => Raise TypeError
  end.

(** *** Field accessor (lines 77-96) *)

Definition field (issue : pydict) (key : str) : result value :=
  let f := por (get_or issue (u "fields") empty_dict) empty_dict in
  let! here := contains f key in
  if here then call_get f key
  else
    let! there := contains f (lower key) in
    if there then call_get f (lower key)
    else Ok VNone.

Definition field_text (issue : pydict) (key : str) : result value :=
  let! v := field issue key in
  match v with
  | VNone => Ok empty_str
  | VDict d =>
      Ok (por (por (por (por (get d (u "displayName")) (get d (u "name")))
                        (get d (u "value")))
                   (get d (u "id")))
              empty_str)
  | VList l =>
      let parts :=
        map (fun it =>
               match it with
               | VDict e =>
                   por (por (por (por (get e (u "name")) (get e (u "value")))
                                 (get e (u "displayName")))
                            (get e (u "key")))
                       empty_str
               | _ => VStr (str_of it)
               end) l in
      let! joined := join_values (u ", ") (filter (fun p => truthy p = true) parts) in
      Ok (VStr joined)
  | _ => Ok (VStr (str_of v))
  end.

(** *** Record classifier (lines 98-113, 124-126) *)

Definition issue_type (issue : pydict) : result str :=
  let! it := call_get (por (get issue (u "fields")) empty_dict) (u "issuetype") in
  let! name := call_get (por it empty_dict) (u "name") in
  call_strip (por name empty_str).

Definition issue_status_name (issue : pydict) : result str :=
  let! st0 := call_get (por (get issue (u "fields")) empty_dict) (u "status") in
  let st := por st0 empty_dict in
  let! name := call_get st (u "name") in
  if truthy name then call_strip name
  else
    let! cat := call_get_or st (u "statusCategory") empty_dict in
    let! cname := call_get cat (u "name") in
    call_strip (por cname empty_str).

Definition issue_key (issue : pydict) : value :=
  por (get issue (u "key")) empty_str.

Definition parent_key (issue : pydict) : result value :=
  let! p := call_get (por (get issue (u "fields")) empty_dict) (u "parent") in
  match p with
  | VDict d => Ok (por (get d (u "key")) empty_str)
  | _ => Ok empty_str
  end.

(** The terminal statuses, a set literal in the source. *)
Definition terminal : gset str :=
  {[ u "done"; u "closed"; u "resolved" ]}.

Definition is_open (issue : pydict) : result bool :=
  let! st := issue_status_name issue in
  Ok (negb (bool_decide (lower st ∈ terminal))).

(** *** Root resolver (lines 115-122) *)

(** The comprehension [{issue_key(i): i for i in issues}].  A later record
    replaces an earlier one with the same key; a list or a dict is not
    hashable.  Only entries with a [str] key are kept: the dict is read with
    a [str] only, to which no other key compares equal. *)
Fixpoint index_by_key (issues : list pydict) (by_key : gmap str pydict)
  : result (gmap str pydict) :=
  match issues with
  | [] => Ok by_key
  | i :: rest =>
      match issue_key i with
      | VStr k => index_by_key rest (<[k := i]> by_key)
      | VList _ | VDict _ => Raise TypeError
      | _ => index_by_key rest by_key
      end
  end.

(** The loop [for it in issues: if not parent_key(it): return it]. *)
Fixpoint first_parentless (issues : list pydict) : result (option pydict) :=
  match issues with
  | [] => Ok None
  | it :: rest =>
      let! pk := parent_key it in
      if negb (truthy pk) then Ok (Some it) else first_parentless rest
  end.

Definition determine_root (issues : list pydict) (hint_key : option str)
  : result (option pydict) :=
  let! by_key := index_by_key issues ∅ in
  let hit :=
    match hint_key with
    | Some h => if truthy (VStr h) then by_key !! h else None
    | None => None
    end in
  match hit with
  | Some r => Ok (Some r)
  | None =>
      let! found := first_parentless issues in
      match found with
      | Some it => Ok (Some it)
      | None => Ok (head issues)
      end
  end.

(** *** Date normalizer (lines 29-39) *)

(** Lines 32-33: the text handed to the parser. *)
Definition iso_text (v : str) : str :=
  let s := replace (u "+0000") (u "+00:00") v in
  if endswith (u "Z") s then removelast s ++ u "+00:00" else s.

(** The body of the [try]; [None] when anything in it raises. *)
Definition fmt_date_try (v : value) (tzname fmt : str) : option str :=
  match v with
  | VStr raw =>
      match fromisoformat (iso_text raw) with
      | None => None
      | Some dt =>
          let converted :=
            if truthy (VStr tzname) then
              match ZoneInfo with
              | Some zone =>
                  match zone tzname with
                  | None => None
                  | Some z => astimezone dt z
                  end
              | None => Some dt
              end
            else Some dt in
          match converted with
          | None => None
          | Some dt => strftime dt fmt
          end
      end
  | _ => None                       (* no [replace] method *)
  end.

Definition fmt_date (v : value) (tzname fmt : str) : value :=
  if negb (truthy v) then empty_str
  else match fmt_date_try v tzname fmt with
       | Some s => VStr s
       | None => v
       end.

Definition default_fmt : str := u "%Y-%m-%d".

(** *** Report renderer (lines 128-226) *)

Definition cfg_get (cfg : gmap str str) (k : str) : result str :=
  match cfg !! k with
  | Some v => Ok v
  | None => Raise KeyError
  end.

(** Lines 143-145: [by_type.setdefault(issue_type(it), []).append(it)]. *)
Fixpoint group_by_type (issues : list pydict)
    (by_type : gmap str (list pydict)) : result (gmap str (list pydict)) :=
  match issues with
  | [] => Ok by_type
  | it :: rest =>
      let! t := issue_type it in
      group_by_type rest (<[t := default [] (by_type !! t) ++ [it]]> by_type)
  end.

(** [by_type.get(t, [])] *)
Definition of_type (by_type : gmap str (list pydict)) (t : str)
  : list pydict := default [] (by_type !! t).

Definition bullet_or_none (items : list str) : list str :=
  match items with
  | [] => [u "None"]
  | _ => items
  end.

Definition format_item (it : pydict) (extra_bits : list str) : result str :=
  let key := issue_key it in
  let! summary := field_text it (u "summary") in
  let bits := [str_of key ++ u " — " ++ str_of summary]
              ++ List.filter (fun b => truthy (VStr b)) extra_bits in
  Ok (u "- " ++ join (u " | ") bits).

(** Lines 158-173. *)
Definition weekly_updates (by_type : gmap str (list pydict)) (root : pydict)
    (root_type : str) (cfg : gmap str str) (weekly_field : str)
  : result (list str) :=
  let! initiative := cfg_get cfg (u "INITIATIVE_TYPE_NAME") in
  if bool_decide (lower root_type = lower initiative) then
    let! project := cfg_get cfg (u "PROJECT_TYPE_NAME") in
    let! projects := filterM is_open (of_type by_type project) in
    let! weekly_lines :=
      foldM (fun weekly_lines p =>
               let! wu := field_text p weekly_field in
               if truthy wu then
                 let key := issue_key p in
                 let! summary := field_text p (u "summary") in
                 Ok (weekly_lines
                     ++ [u "- **" ++ str_of key ++ u " — " ++ str_of summary
                         ++ u "**: " ++ str_of wu])
               else Ok weekly_lines)
            [] projects in
    Ok (match weekly_lines with
        | [] => [u "- None"]
        | _ => weekly_lines
        end)
  else
    let! wu := field_text root weekly_field in
    Ok (if truthy wu then [u "- " ++ str_of wu] else [u "- None"]).

(** Lines 176-186. *)
Definition upcoming_milestones (by_type : gmap str (list pydict))
    (milestone_type milestone_target_end milestone_rag tzname : str)
  : result (list str) :=
  let! milestones := filterM is_open (of_type by_type milestone_type) in
  let! milestone_lines :=
    foldM (fun milestone_lines m =>
             let key := issue_key m in
             let! summ := field_text m (u "summary") in
             let! target := field_text m milestone_target_end in
             let tgt := fmt_date target tzname default_fmt in
             let! rag := field_text m milestone_rag in
             Ok (milestone_lines
                 ++ [u "- " ++ str_of key ++ u " — " ++ str_of summ
                     ++ u " | Target end: " ++ str_of (por tgt (VStr (u "-")))
                     ++ u " | RAG: " ++ str_of (por rag (VStr (u "-")))]))
          [] milestones in
  Ok (bullet_or_none milestone_lines).

(** One pass of the inner loop of [section]: the extra for column [col]. *)
Definition extra_col (cfg : gmap str str) (it : pydict) (extra : list str)
    (col : str) : result (list str) :=
  if bool_decide (col = u "__status") then
    let! st := issue_status_name it in
    Ok (extra ++ [u "Status: " ++ st])
  else if bool_decide (col = u "__assignee") then
    let! who := field_text it (u "assignee") in
    Ok (if truthy who then extra ++ [u "Assignee: " ++ str_of who] else extra)
  else if bool_decide (col = u "__risk_score") then
    let! risk_field := cfg_get cfg (u "RISK_SCORE_FIELD") in
    let! rs := field_text it risk_field in
    Ok (if truthy rs then extra ++ [u "Aristocrat risk score: " ++ str_of rs]
        else extra)
  else
    let! val := field_text it col in
    Ok (if truthy val then extra ++ [col ++ u ": " ++ str_of val] else extra).

(** Lines 188-209; [lines] is the list of the enclosing function, which the
    closure extends. *)
Definition section (by_type : gmap str (list pydict)) (cfg : gmap str str)
    (lines : list str) (header type_name : str) (extra_cols : list str)
  : result (list str) :=
  let lines := lines ++ [header ++ u ":"] in
  let! items := filterM is_open (of_type by_type type_name) in
  let! rows :=
    foldM (fun rows it =>
             let! extra := foldM (extra_col cfg it) [] extra_cols in
             let! row := format_item it extra in
             Ok (rows ++ [row]))
          [] items in
  let rows := match rows with [] => [u "None"] | _ => rows end in
  Ok ((lines ++ rows) ++ [blank]).

Definition risk_cols : list str :=
  [u "__status"; u "__risk_score"; u "__assignee"].
Definition raid_cols : list str := [u "__status"; u "__assignee"].

(** The five calls of [section], lines 212-216 and again 219-223. *)
Definition raid_sections (by_type : gmap str (list pydict))
    (cfg : gmap str str) (lines : list str)
    (init_risk_type assumption_type issue_t decision_t change_req_t : str)
  : result (list str) :=
  let! lines := section by_type cfg lines (u "Risks") init_risk_type risk_cols in
  let! lines := section by_type cfg lines (u "Assumptions") assumption_type raid_cols in
  let! lines := section by_type cfg lines (u "Issues") issue_t raid_cols in
  let! lines := section by_type cfg lines (u "Decisions") decision_t raid_cols in
  section by_type cfg lines (u "Change requests") change_req_t raid_cols.

(** [build_report] up to line 223: the title and the list [lines]. *)
Definition report_lines (issues : list pydict) (root : pydict)
    (cfg : gmap str str) (tzname : str) : result (str * list str) :=
  let! root_type := issue_type root in
  let root_key := issue_key root in
  let! root_summary := field_text root (u "summary") in
  let! weekly_field := cfg_get cfg (u "WEEKLY_UPDATE_FIELD") in
  let! milestone_type := cfg_get cfg (u "MILESTONE_TYPE_NAME") in
  let! milestone_target_end := cfg_get cfg (u "MILESTONE_TARGET_END_FIELD") in
  let! milestone_rag := cfg_get cfg (u "MILESTONE_RAG_FIELD") in
  let! init_risk_type := cfg_get cfg (u "INITIATIVE_RISK_TYPE_NAME") in
  let! assumption_type := cfg_get cfg (u "ASSUMPTION_TYPE_NAME") in
  let! issue_t := cfg_get cfg (u "ISSUE_TYPE_NAME") in
  let! decision_t := cfg_get cfg (u "DECISION_TYPE_NAME") in
  let! change_req_t := cfg_get cfg (u "CHANGE_REQ_TYPE_NAME") in
  let! by_type := group_by_type issues ∅ in
  let lines := [] in
  let title :=
    strip_chars (u " —") (str_of root_key ++ u " — " ++ str_of root_summary) in
  let lines := lines ++ [u "Weekly updates:"] in
  let! weekly_lines := weekly_updates by_type root root_type cfg weekly_field in
  let lines := lines ++ weekly_lines in
  let lines := lines ++ [blank] in
  let lines := lines ++ [u "Upcoming Milestones:"] in
  let! milestone_lines :=
    upcoming_milestones by_type milestone_type milestone_target_end
      milestone_rag tzname in
  let lines := lines ++ milestone_lines in
  let lines := lines ++ [blank] in
  let! initiative := cfg_get cfg (u "INITIATIVE_TYPE_NAME") in
  let! lines :=
    if bool_decide (lower root_type = lower initiative) then
      raid_sections by_type cfg lines init_risk_type assumption_type issue_t
        decision_t change_req_t
    else
      raid_sections by_type cfg lines init_risk_type assumption_type issue_t
        decision_t change_req_t in
  Ok (title, lines).

Definition newline : str := [10%N].

Definition build_report (issues : list pydict) (root : pydict)
    (cfg : gmap str str) (tzname : str) : result (str * str) :=
  let! '(title, lines) := report_lines issues root cfg tzname in
  let text := (u "# " ++ title ++ newline ++ newline)
              ++ rstrip (join newline lines) ++ newline in
  Ok (title, text).

End Script.

(** ** A concrete runtime

    CPython restricted to what the examples need: ASCII case mapping, the
    timestamps every version of [datetime.fromisoformat] accepts, and
    [strftime] for the year, month and day directives. *)
Module Host.

Definition ascii_lower (s : str) : str :=
  map (fun c => if ((65 <=? c) && (c <=? 90))%N then (c + 32)%N else c) s.

Definition unicode_space (c : char) : bool :=
  (((9 <=? c) && (c <=? 13)) || ((28 <=? c) && (c <=? 32))
   || (c =? 133) || (c =? 160) || (c =? 5760)
   || ((8192 <=? c) && (c <=? 8202)) || (c =? 8232) || (c =? 8233)
   || (c =? 8239) || (c =? 8287) || (c =? 12288))%N.

(** [repr] for values whose strings are printable and hold no quote or
    backslash. *)
Fixpoint repr_value (v : value) : str :=
  match v with
  | VNone => u "None"
  | VBool true => u "True"
  | VBool false => u "False"
  | VInt z => decimal z
  | VFloat _ text => text
  | VStr s => u "'" ++ s ++ u "'"
  | VList l => u "[" ++ join (u ", ") (map repr_value l) ++ u "]"
  | VDict d =>
      u "{"
      ++ join (u ", ")
           (map (fun kv => match kv with
                           | (k, x) => u "'" ++ k ++ u "': " ++ repr_value x
                           end) d)
      ++ u "}"
  end.

Record date_time : Type := {
  year : Z; month : Z; day : Z;
  hour : Z; minute : Z; second : Z;
  utcoffset : option Z                    (* minutes east of UTC *)
}.

Definition digit (c : char) : option Z :=
  if ((48 <=? c) && (c <=? 57))%N then Some (Z.of_N c - 48)%Z else None.

Definition num2 (a b : char) : option Z :=
  match digit a, digit b with
  | Some x, Some y => Some (10 * x + y)%Z
  | _, _ => None
  end.

Definition leap (y : Z) : bool :=
  ((y mod 4 =? 0) && (negb (y mod 100 =? 0) || (y mod 400 =? 0)))%Z.

Definition days_in_month (y m : Z) : Z :=
  if (m =? 2)%Z then (if leap y then 29 else 28)%Z
  else if ((m =? 4) || (m =? 6) || (m =? 9) || (m =? 11))%Z then 30%Z
  else 31%Z.

Definition parse_date (s : str) : option (Z * Z * Z) :=
  match s with
  | [y1; y2; y3; y4; 45; m1; m2; 45; d1; d2]%N =>
      match num2 y1 y2, num2 y3 y4, num2 m1 m2, num2 d1 d2 with
      | Some yh, Some yl, Some m, Some d =>
          let y := (100 * yh + yl)%Z in
          if ((1 <=? y) && (1 <=? m) && (m <=? 12) && (1 <=? d)
              && (d <=? days_in_month y m))%Z
          then Some (y, m, d) else None
      | _, _, _, _ => None
      end
  | _ => None
  end.

Definition parse_clock (s : str) : option (Z * Z * Z) :=
  match s with
  | [h1; h2; 58; m1; m2; 58; s1; s2]%N =>
      match num2 h1 h2, num2 m1 m2, num2 s1 s2 with
      | Some h, Some m, Some sec =>
          if ((h <? 24) && (m <? 60) && (sec <? 60))%Z
          then Some (h, m, sec) else None
      | _, _, _ => None
      end
  | _ => None
  end.

Definition parse_offset (s : str) : option (option Z) :=
  match s with
  | [] => Some None
  | [sign; h1; h2; 58; m1; m2]%N =>
      match num2 h1 h2, num2 m1 m2 with
      | Some h, Some m =>
          if ((h <? 24) && (m <? 60))%Z then
            if (sign =? 43)%N then Some (Some (60 * h + m)%Z)
            else if (sign =? 45)%N then Some (Some (- (60 * h + m))%Z)
            else None
          else None
      | _, _ => None
      end
  | _ => None
  end.

(** [YYYY-MM-DD], optionally followed by one separator character,
    [HH:MM:SS] and an offset [+HH:MM] or [-HH:MM]. *)
Definition parse_iso (s : str) : option date_time :=
  match parse_date (take 10 s) with
  | None => None
  | Some (y, m, d) =>
      match drop 10 s with
      | [] => Some {| year := y; month := m; day := d; hour := 0;
                      minute := 0; second := 0; utcoffset := None |}
      | _ :: rest =>
          match parse_clock (take 8 rest), parse_offset (drop 8 rest) with
          | Some (h, mi, sec), Some off =>
              Some {| year := y; month := m; day := d; hour := h;
                      minute := mi; second := sec; utcoffset := off |}
          | _, _ => None
          end
      end
  end.

Definition pad (width : nat) (z : Z) : str :=
  let digits := decimal z in
  repeat 48%N (width - length digits) ++ digits.

(** [%Y], [%m], [%d] and [%%]; any other directive is not supported. *)
Fixpoint format_date (dt : date_time) (fmt : str) : option str :=
  match fmt with
  | [] => Some []
  | 37%N :: d :: rest =>
      let piece :=
        if (d =? 89)%N then Some (pad 4 (year dt))
        else if (d =? 109)%N then Some (pad 2 (month dt))
        else if (d =? 100)%N then Some (pad 2 (day dt))
        else if (d =? 37)%N then Some [37%N]
        else None in
      match piece, format_date dt rest with
      | Some p, Some tail => Some (p ++ tail)
      | _, _ => None
      end
  | c :: rest =>
      match format_date dt rest with
      | Some tail => Some (c :: tail)
      | None => None
      end
  end.

(** A host whose [zoneinfo] module finds no zone data: every
    [ZoneInfo(name)] raises. *)
Definition no_tzdata : Python := {|
  lower := ascii_lower;
  isspace := unicode_space;
  repr := repr_value;
  datetime := date_time;
  tzinfo := Empty_set;
  fromisoformat := parse_iso;
  ZoneInfo := Some (fun _ => None);
  astimezone := fun dt z => match z with end;
  strftime := format_date;
|}.

(** A host without the [zoneinfo] module (Python before 3.9): the import
    fails and the script sets [ZoneInfo = None]. *)
Definition no_zoneinfo : Python := {|
  lower := ascii_lower;
  isspace := unicode_space;
  repr := repr_value;
  datetime := date_time;
  tzinfo := Empty_set;
  fromisoformat := parse_iso;
  ZoneInfo := None;
  astimezone := fun dt z => match z with end;
  strftime := format_date;
|}.

(** *** Zone conversion

    [datetime.astimezone(tz)] moves a timestamp to the offset of [tz].  A
    timestamp that carries an offset is moved from that offset; one that
    carries none (a date such as 2024-03-05, or a time without offset) is
    taken to be in the local zone of the process. *)

Definition next_day (ymd : Z * Z * Z) : Z * Z * Z :=
  match ymd with
  | (y, m, d) =>
      if (d <? days_in_month y m)%Z then (y, m, d + 1)%Z
      else if (m <? 12)%Z then (y, m + 1, 1)%Z
      else (y + 1, 1, 1)%Z
  end.

Definition prev_day (ymd : Z * Z * Z) : Z * Z * Z :=
  match ymd with
  | (y, m, d) =>
      if (1 <? d)%Z then (y, m, d - 1)%Z
      else if (1 <? m)%Z then (y, m - 1, days_in_month y (m - 1))%Z
      else (y - 1, 12, 31)%Z
  end.

(** The timestamp [minutes] later (earlier when negative), labelled with the
    offset [off]; [None] when the year leaves 1..9999 ([OverflowError]). *)
Definition shift (dt : date_time) (minutes off : Z) : option date_time :=
  let t := (60 * hour dt + minute dt + minutes)%Z in
  let carry := (t / 1440)%Z in
  let clock := (t mod 1440)%Z in
  let '(y, m, d) :=
    if (0 <=? carry)%Z
    then Nat.iter (Z.to_nat carry) next_day (year dt, month dt, day dt)
    else Nat.iter (Z.to_nat (- carry)) prev_day (year dt, month dt, day dt) in
  if ((1 <=? y) && (y <=? 9999))%Z then
    Some {| year := y; month := m; day := d;
            hour := (clock / 60)%Z; minute := (clock mod 60)%Z;
            second := second dt; utcoffset := Some off |}
  else None.

(** Zone data for three zones whose offset never changes; minutes east of
    UTC.  (The [Etc] names carry the POSIX sign: [Etc/GMT-9] is nine hours
    east.) *)
Definition fixed_zone (name : str) : option Z :=
  if bool_decide (name = u "UTC") then Some 0%Z
  else if bool_decide (name = u "Etc/GMT-9") then Some 540%Z
  else if bool_decide (name = u "Etc/GMT+5") then Some (-300)%Z
  else None.

(** A host with the [zoneinfo] module whose local zone is [local] minutes
    east of UTC all year. *)
Definition located (local : Z) : Python := {|
  lower := ascii_lower;
  isspace := unicode_space;
  repr := repr_value;
  datetime := date_time;
  tzinfo := Z;
  fromisoformat := parse_iso;
  ZoneInfo := Some fixed_zone;
  astimezone := fun dt z =>
    let from := match utcoffset dt with Some o => o | None => local end in
    shift dt (z - from) z;
  strftime := format_date;
|}.

End Host.

(** ** Sample data *)
Module Sample.

Definition s (x : string) : value := VStr (u x).

(** An issue as the tracker returns it. *)
Definition issue (key type status summary : string)
    (more : list (str * value)) : list (str * value) :=
  [ (u "key", s key);
    (u "fields",
      VDict ([ (u "summary", s summary);
               (u "issuetype", VDict [(u "name", s type)]);
               (u "status", VDict [(u "name", s status)]) ] ++ more)) ].

(** The configuration [main] builds when no variable overrides a default. *)
Definition cfg : gmap str str :=
  list_to_map
    [ (u "WEEKLY_UPDATE_FIELD", u "customfield_weekly_update");
      (u "MILESTONE_TYPE_NAME", u "Milestone");
      (u "MILESTONE_TARGET_END_FIELD", u "duedate");
      (u "MILESTONE_RAG_FIELD", u "customfield_rag");
      (u "INITIATIVE_RISK_TYPE_NAME", u "InitiativeRisk");
      (u "ASSUMPTION_TYPE_NAME", u "Assumption");
      (u "ISSUE_TYPE_NAME", u "Issue");
      (u "DECISION_TYPE_NAME", u "Decision");
      (u "CHANGE_REQ_TYPE_NAME", u "Change req");
      (u "PROJECT_TYPE_NAME", u "Project");
      (u "INITIATIVE_TYPE_NAME", u "PMO Initiative");
      (u "RISK_SCORE_FIELD", u "customfield_riskscore") ].

Definition child (more : list (str * value)) : list (str * value) :=
  (u "parent", VDict [(u "key", s "PMO-1")]) :: more.

Definition root : list (str * value) :=
  issue "PMO-1" "PMO Initiative" "In Progress" "Launch" [].
Definition p1 : list (str * value) :=
  issue "PRJ-1" "Project" "Open" "Alpha"
    (child [(u "customfield_weekly_update", s "On track")]).
Definition p2 : list (str * value) :=
  issue "PRJ-2" "Project" "Open" "Beta" (child []).
Definition p3 : list (str * value) :=
  issue "PRJ-3" "Project" "Done" "Gamma"
    (child [(u "customfield_weekly_update", s "Shipped")]).
Definition m1 : list (str * value) :=
  issue "MS-1" "Milestone" "Open" "Go live"
    (child [(u "duedate", s "2024-13-99"); (u "customfield_rag", s "Amber")]).
Definition m2 : list (str * value) :=
  issue "MS-2" "Milestone" "Open" "Pilot"
    (child [(u "duedate", s "2024-12-01T09:00:00Z")]).
Definition r1 : list (str * value) :=
  [ (u "key", s "RSK-1");
    (u "fields",
      VDict (child
        [ (u "summary", s "Vendor");
          (u "issuetype", VDict [(u "name", s "InitiativeRisk")]);
          (u "status", VDict []);
          (u "assignee", VDict [(u "displayName", s "Ann")]) ])) ].

Definition issues : list (list (str * value)) := [root; p1; p2; p3; m1; m2; r1].

(** A leaf root with its own weekly update. *)
Definition leaf : list (str * value) :=
  issue "PRJ-9" "Project" "Open" "Omega"
    [(u "customfield_weekly_update", s "Blocked on vendor")].

(** A milestone whose type label differs from the configured name in letter
    case only. *)
Definition m_lower : list (str * value) :=
  issue "MS-3" "milestone" "Open" "Cutover" (child []).
Definition m_exact : list (str * value) :=
  issue "MS-3" "Milestone" "Open" "Cutover" (child []).

(** A root whose type label differs from the configured initiative name in
    letter case only. *)
Definition root_lower : list (str * value) :=
  issue "PMO-1" "pmo initiative" "In Progress" "Launch" [].

(** A label list whose element carries a number as its name, and an option
    that has only a numeric id. *)
Definition numbered_label : list (str * value) :=
  [ (u "key", s "LBL-1");
    (u "fields", VDict [(u "labels", VList [VDict [(u "name", VInt 7)]])]) ].
Definition numeric_option : list (str * value) :=
  [ (u "key", s "OPT-1");
    (u "fields", VDict [(u "customfield_size", VDict [(u "id", VInt 10001)])]) ].

(** A project whose type label differs from the configured name in letter
    case only. *)
Definition p_lower : list (str * value) :=
  issue "PRJ-1" "project" "Open" "Alpha"
    (child [(u "customfield_weekly_update", s "On track")]).

(** A root whose summary ends with an em dash of its own, and one without
    a summary. *)
Definition dashed : list (str * value) :=
  issue "PMO-1" "PMO Initiative" "Open" "Phase 2 —" [].
Definition untitled : list (str * value) :=
  issue "PMO-1" "PMO Initiative" "Open" "" [].

(** A milestone due on a calendar date, as the tracker delivers a date
    field, and one due at an instant that carries its offset. *)
Definition m_dated : list (str * value) :=
  issue "MS-4" "Milestone" "Open" "Cutover"
    (child [(u "duedate", s "2024-03-05")]).
Definition m_stamped : list (str * value) :=
  issue "MS-5" "Milestone" "Open" "Handover"
    (child [(u "duedate", s "2024-03-05T00:00:00+0000")]).

(** The report on [issues], without zone conversion. *)
Definition title : str :=
  Eval vm_compute in
    match @build_report Host.no_tzdata issues root cfg [] with
    | Ok (t, _) => t
    | Raise _ => []
    end.
Definition body : str :=
  Eval vm_compute in
    match @build_report Host.no_tzdata issues root cfg [] with
    | Ok (_, b) => b
    | Raise _ => []
    end.
Definition lines : list str :=
  Eval vm_compute in
    match @report_lines Host.no_tzdata issues root cfg [] with
    | Ok (_, l) => l
    | Raise _ => []
    end.

(** The groups of [issues]. *)
Definition by_type : gmap str (list (list (str * value))) :=
  list_to_map
    [ (u "PMO Initiative", [root]); (u "Project", [p1; p2; p3]);
      (u "Milestone", [m1; m2]); (u "InitiativeRisk", [r1]) ].

End Sample.

(** ** The collaborators: configuration, retrieval and delivery

    The functions around the core (lines 19-75 and 228-307): the detection
    of requested fields, the paginated search, the webhook delivery and
    [main].  The process environment, [int()] and the network are the fields
    of the class [Machine]; a run threads the state of the network and a log
    of what was printed and sent. *)

Section Fields.

Context `{Python}.

(** *** [parse_bool] (lines 22-24) *)

Definition true_words : gset str :=
  {[ u "1"; u "true"; u "yes"; u "y"; u "on" ]}.

Definition parse_bool (v : option str) (default : bool) : bool :=
  match v with
  | None => default
  | Some s => bool_decide (lower (strip s) ∈ true_words)
  end.

(** *** [detect_fields] (lines 48-58) *)

(** [for x in v]: the elements of a list, the characters of a string, the
    keys of a dict; other objects cannot be iterated. *)
Definition iterate (v : value) : result (list value) :=
  match v with
  | VList l => Ok l
  | VStr s => Ok (map (fun c => VStr [c]) s)
  | VDict d => Ok (map (fun kv => VStr (fst kv)) d)
  | _ => Raise TypeError
  end.

(** [f[k]] for a string [k]: only a dict can be subscripted with a string,
    and the key has to be there. *)
Definition subscript (f : value) (k : str) : result value :=
  match f with
  | VDict d =>
      match lookup_item d k with
      | Some v => Ok v
      | None => Raise KeyError
      end
  | _ => Raise TypeError
  end.

(** A set comprehension [{proj(f) for f in fs}].  A list or a dict cannot be
    a member; the set is read with strings only, so only its string members
    are kept. *)
Fixpoint collect (proj : value -> result value) (fs : list value)
    (acc : gset str) : result (gset str) :=
  match fs with
  | [] => Ok acc
  | f :: rest =>
      let! v := proj f in
      match v with
      | VStr s => collect proj rest ({[ s ]} ∪ acc)
      | VList _ | VDict _ => Raise TypeError
      | _ => collect proj rest acc
      end
  end.

Definition detect_fields (requested : list str) (all_fields : value)
  : result (list str) :=
  let! fs := iterate all_fields in
  let! known_ids := collect (fun f => subscript f (u "id")) fs ∅ in
  let! known_names :=
    collect (fun f => let! name := call_get f (u "name") in
                      Ok (por name empty_str)) fs ∅ in
  Ok (fold_left
        (fun out f =>
           if negb (truthy (VStr f)) then out
           else if bool_decide (f ∈ known_ids) || bool_decide (f ∈ known_names)
                then out ++ [f]
                else out ++ [f])
        requested []).

(** *** The requested fields (lines 272-282) *)



Definition base_fields (cfg : gmap str str) : result (list str) :=
  let! target_end := cfg_get cfg (u "MILESTONE_TARGET_END_FIELD") in
  let! rag := cfg_get cfg (u "MILESTONE_RAG_FIELD") in
  let! weekly := cfg_get cfg (u "WEEKLY_UPDATE_FIELD") in
  let! risk := cfg_get cfg (u "RISK_SCORE_FIELD") in
  Ok [u "summary"; u "issuetype"; u "status"; u "assignee"; u "parent";
      target_end; rag; weekly; risk].



(** *** The title of the card (line 305) *)

Definition post_title (title_override title : str) : str :=
  if truthy (VStr (strip title_override))
  then title_override ++ u " — " ++ title
  else title.

End Fields.

(** ** Retrieval: [jira_search] (lines 60-75)

    The tracker is reached through [requests.post], and what it answers is
    not the script's to decide: the network is a state [world] with a
    transition [post], which raises ([None]) or delivers a response. *)
Module Http.

Record response : Type := {
  status_code : Z;
  text : str;
  json : option value        (* [r.json()]; [None] when the body is no JSON *)
}.

(** The request of [jira_search]: the address, the credentials and the
    payload.  Headers and time-out are constants. *)
Record search : Type := {
  url : str;
  auth : str * str;
  jql : str;
  startAt : Z;
  maxResults : Z;
  fields : list str
}.

Inductive failure : Type :=
| Core (e : exn)
| RuntimeError (message : str)
| JSONDecodeError
| RequestException.

Inductive outcome (A : Type) : Type :=
| Returns (a : A)
| Fails (f : failure).
Arguments Returns {A} a.
Arguments Fails {A} f.

End Http.

(** [len(v)] *)
Definition len (v : value) : result Z :=
  match v with
  | VStr s => Ok (Z.of_nat (length s))
  | VList l => Ok (Z.of_nat (length l))
  | VDict d => Ok (Z.of_nat (length d))
  | _ => Raise TypeError
  end.

Section Retrieval.

Context {world : Type}.
Variable post : world -> Http.search -> world * option Http.response.
Variables base email token jql : str.
Variable fields : list str.
Variables max_issues batch_size : Z.

(** Lines 61 and 66: the request for the next page. *)
Definition page_request (out : list value) (start_at : Z) : Http.search := {|
  Http.url := base ++ u "/rest/api/3/search/jql";
  Http.auth := (email, token);
  Http.jql := jql;
  Http.startAt := start_at;
  Http.maxResults := Z.min batch_size (max_issues - Z.of_nat (length out));
  Http.fields := fields
|}.

(** Lines 68-71: the batch of a response. *)
Definition batch_of (r : Http.response) : Http.outcome value :=
  if negb (Http.status_code r =? 200)%Z then
    Http.Fails
      (Http.RuntimeError
         (u "Jira error " ++ decimal (Http.status_code r) ++ u ": "
          ++ take 400 (Http.text r)))
  else
    match Http.json r with
    | None => Http.Fails Http.JSONDecodeError
    | Some data =>
        match call_get_or data (u "issues") (VList []) with
        | Ok batch => Http.Returns batch
        | Raise e => Http.Fails (Http.Core e)
        end
    end.

(** The [while] loop of lines 65-74; [None] when the fuel runs out. *)
Fixpoint search_loop (fuel : nat) (w : world) (out : list value)
    (start_at : Z) : option (Http.outcome (list value) * world) :=
  if (Z.of_nat (length out) <? max_issues)%Z then
    match fuel with
    | O => None
    | S fuel' =>
        match post w (page_request out start_at) with
        | (w', None) => Some (Http.Fails Http.RequestException, w')
        | (w', Some r) =>
            match batch_of r with
            | Http.Fails f => Some (Http.Fails f, w')
            | Http.Returns batch =>
                match iterate batch with             (* out.extend(batch) *)
                | Raise e => Some (Http.Fails (Http.Core e), w')
                | Ok items =>
                    if negb (truthy batch)
                    then Some (Http.Returns (out ++ items), w')
                    else
                      match len batch with
                      | Raise e => Some (Http.Fails (Http.Core e), w')
                      | Ok n => search_loop fuel' w' (out ++ items)
                                  (start_at + n)
                      end
                end
            end
        end
    end
  else Some (Http.Returns out, w).

(** Every turn of the loop that goes on adds a record, so [max_issues]
    turns are enough. *)
Definition jira_search (w : world)
  : option (Http.outcome (list value) * world) :=
  search_loop (Z.to_nat max_issues) w [] 0.

End Retrieval.

(** ** Vocabulary of the specification *)

(** The test of a comprehension, read as a total predicate: a test that
    raises selects nothing. *)
Definition passes {A} (p : A -> result bool) (x : A) : bool :=
  match p x with
  | Ok b => b
  | Raise _ => false
  end.

Section Views.

Context `{Python}.

(** Total readings of the accessors: what they return, and a neutral value
    where they raise. *)
Definition has_type (t : str) (it : pydict) : bool :=
  match issue_type it with
  | Ok t' => bool_decide (t' = t)
  | Raise _ => false
  end.

Definition open (it : pydict) : bool := passes is_open it.

Definition text (it : pydict) (key : str) : value :=
  match field_text it key with
  | Ok v => v
  | Raise _ => empty_str
  end.

Definition status_text (it : pydict) : str :=
  match issue_status_name it with
  | Ok st => st
  | Raise _ => []
  end.

End Views.

(** The record's key is the string [h]. *)
Definition key_is (h : str) (i : pydict) : bool :=
  match issue_key i with
  | VStr k => bool_decide (k = h)
  | _ => false
  end.

(** The record has no parent reference: [not parent_key(i)]. *)
Definition parentless (i : pydict) : bool :=
  match parent_key i with
  | Ok pk => negb (truthy pk)
  | Raise _ => false
  end.

Definition hashable (v : value) : bool :=
  match v with
  | VList _ | VDict _ => false
  | _ => true
  end.

(** The shape of a record the resolver relies on: a key that can index a
    dict, and a [fields] entry that is a mapping or missing. *)
Definition record_shaped (i : pydict) : bool :=
  hashable (issue_key i)
  && match parent_key i with Ok _ => true | Raise _ => false end.

(** The hint selects nothing: none given, an empty one, or no record with
    that key. *)
Definition no_hit (hint : option str) (issues : list pydict) : Prop :=
  match hint with
  | None => True
  | Some h => h = [] \/ List.filter (key_is h) issues = []
  end.

(** The zone database is consulted and knows [tz]: [ZoneInfo(tz)] returns. *)
Definition known_zone `{Python} (tz : str) : Prop :=
  match ZoneInfo with
  | Some zone => is_Some (zone tz)
  | None => False
  end.

(** The claim that an unknown zone name always yields the raw text, read
    over every runtime. *)
Definition unknown_zone_yields_raw : Prop :=
  forall (P : Python) (raw tz : str) (dt : datetime),
    fromisoformat (iso_text raw) = Some dt ->
    tz <> [] ->
    ~ known_zone tz ->
    fmt_date (VStr raw) tz default_fmt = VStr raw.

Section Sections.

Context `{Python}.

(** An open record of type [project] with a non-empty weekly update. *)
Definition qualifies (project weekly_field : str) (p : pydict) : bool :=
  has_type project p && open p && truthy (text p weekly_field).

Definition weekly_bullet (weekly_field : str) (p : pydict) : str :=
  u "- **" ++ str_of (issue_key p) ++ u " — " ++ str_of (text p (u "summary"))
  ++ u "**: " ++ str_of (text p weekly_field).

(** The body of the Weekly updates section, in the words of the
    specification. *)
Definition weekly_section (issues : list pydict) (root : pydict)
    (root_type initiative project weekly_field : str) : list str :=
  if bool_decide (lower root_type = lower initiative) then
    match map (weekly_bullet weekly_field)
            (List.filter (qualifies project weekly_field) issues) with
    | [] => [u "- None"]
    | bullets => bullets
    end
  else if truthy (text root weekly_field)
       then [u "- " ++ str_of (text root weekly_field)]
       else [u "- None"].

(** A bullet of a RAID section; [with_risk] tells the Risks section apart. *)
Definition raid_bullet (risk_field : str) (with_risk : bool) (it : pydict)
  : str :=
  u "- "
  ++ join (u " | ")
       ([str_of (issue_key it) ++ u " — " ++ str_of (text it (u "summary"));
         u "Status: " ++ status_text it]
        ++ (if with_risk && truthy (text it risk_field)
            then [u "Aristocrat risk score: " ++ str_of (text it risk_field)]
            else [])
        ++ (if truthy (text it (u "assignee"))
            then [u "Assignee: " ++ str_of (text it (u "assignee"))]
            else [])).

End Sections.

Section Shapes.

Context `{Python}.

(** What [field_text] extracts from one element of a sequence. *)
Definition element_part (it : value) : value :=
  match it with
  | VDict e =>
      por (por (por (por (get e (u "name")) (get e (u "value")))
                    (get e (u "displayName")))
               (get e (u "key")))
          empty_str
  | _ => VStr (str_of it)
  end.

(** A record on which no accessor raises. *)
Definition clean (it : pydict) : Prop :=
  (exists t, issue_type it = Ok t)
  /\ (exists st, issue_status_name it = Ok st)
  /\ (forall key, exists v, field_text it key = Ok v).

(** The configuration binds the twelve names the renderer reads. *)
Definition complete (cfg : gmap str str) : Prop :=
  Forall (fun k => is_Some (cfg !! k))
    [ u "WEEKLY_UPDATE_FIELD"; u "MILESTONE_TYPE_NAME";
      u "MILESTONE_TARGET_END_FIELD"; u "MILESTONE_RAG_FIELD";
      u "INITIATIVE_RISK_TYPE_NAME"; u "ASSUMPTION_TYPE_NAME";
      u "ISSUE_TYPE_NAME"; u "DECISION_TYPE_NAME"; u "CHANGE_REQ_TYPE_NAME";
      u "PROJECT_TYPE_NAME"; u "INITIATIVE_TYPE_NAME"; u "RISK_SCORE_FIELD" ].

End Shapes.

Section Layout.

Context `{Python}.

(** A bullet of the Upcoming Milestones section. *)
Definition milestone_bullet (target_end rag tzname : str) (m : pydict) : str :=
  u "- " ++ str_of (issue_key m) ++ u " — " ++ str_of (text m (u "summary"))
  ++ u " | Target end: "
  ++ str_of (por (fmt_date (text m target_end) tzname default_fmt)
               (VStr (u "-")))
  ++ u " | RAG: " ++ str_of (por (text m rag) (VStr (u "-"))).

(** The open records of exactly the type [t], in input order. *)
Definition open_of_type (issues : list pydict) (t : str) : list pydict :=
  List.filter (fun it => has_type t it && open it) issues.

(** One RAID section: header, bullets or "None", blank line. *)
Definition raid_section (issues : list pydict) (header type_name : str)
    (risk_field : str) (with_risk : bool) : list str :=
  [header ++ u ":"]
  ++ bullet_or_none
       (map (raid_bullet risk_field with_risk) (open_of_type issues type_name))
  ++ [blank].

(** The five RAID sections in their fixed order. *)
Definition raid_part (issues : list pydict)
    (risk_field init_risk_type assumption_type issue_t decision_t
       change_req_t : str) : list str :=
  raid_section issues (u "Risks") init_risk_type risk_field true
  ++ raid_section issues (u "Assumptions") assumption_type risk_field false
  ++ raid_section issues (u "Issues") issue_t risk_field false
  ++ raid_section issues (u "Decisions") decision_t risk_field false
  ++ raid_section issues (u "Change requests") change_req_t risk_field false.

End Layout.

(** Field metadata as the tracker returns it: an object with a string [id]
    and a [name] that is a string, null or missing. *)
Definition field_entry (f : value) : Prop :=
  exists d id,
    f = VDict d /\ lookup_item d (u "id") = Some (VStr id)
    /\ ((exists name, get d (u "name") = VStr name) \/ get d (u "name") = VNone).

(** The runtime [P] with another [datetime.astimezone] in its place. *)
Definition with_astimezone (P : Python)
    (f : @datetime P -> @tzinfo P -> option (@datetime P)) : Python := {|
  lower := @lower P; isspace := @isspace P; repr := @repr P;
  datetime := @datetime P; tzinfo := @tzinfo P;
  fromisoformat := @fromisoformat P; ZoneInfo := @ZoneInfo P;
  astimezone := f; strftime := @strftime P
|}.

(** A tracker that never answers with more records than the page asked
    for. *)
Definition within_page_size {world : Type}
    (post : world -> Http.search -> world * option Http.response) : Prop :=
  forall w q w' r batch items,
    post w q = (w', Some r) ->
    batch_of r = Http.Returns batch ->
    iterate batch = Ok items ->
    (Z.of_nat (length items) <= Z.max 0 (Http.maxResults q))%Z.

(** A tracker that holds [records] and answers every request with the page
    asked for: the records from [startAt] on, [maxResults] of them at
    most. *)
Definition serves {world : Type} (records : list value)
    (post : world -> Http.search -> world * option Http.response) : Prop :=
  forall w q, exists w' r d,
    post w q = (w', Some r)
    /\ Http.status_code r = 200%Z
    /\ Http.json r = Some (VDict d)
    /\ lookup_item d (u "issues")
       = Some (VList (take (Z.to_nat (Http.maxResults q))
                        (drop (Z.to_nat (Http.startAt q)) records))).

(** ** Properties *)

(** *** Results and loops *)

Lemma bind_Ok {A B} (r : result A) (k : A -> result B) (b : B) :
  bind r k = Ok b -> exists a, r = Ok a /\ k a = Ok b.
Proof. destruct r as [a|e]; simpl; [eauto | discriminate]. Qed.

Lemma bind_ret {A B} (a : A) (k : A -> result B) : bind (Ok a) k = k a.
Proof. reflexivity. Qed.

Lemma call_get_dict (d : pydict) (k : str) : call_get (VDict d) k = Ok (get d k).
Proof. reflexivity. Qed.

Lemma call_get_or_dict (d : pydict) (k : str) (dflt : value) :
  call_get_or (VDict d) k dflt = Ok (get_or d k dflt).
Proof. reflexivity. Qed.

(** Peel the outermost [let!] of a hypothesis that says a computation
    returned. *)
Ltac returned H :=
  let a := fresh "a" in
  let E := fresh "E" in
  apply bind_Ok in H; destruct H as (a & E & H).

Lemma filterM_Ok {A} (p : A -> result bool) (l l' : list A) :
  filterM p l = Ok l' -> l' = List.filter (passes p) l.
Proof.
  revert l'; induction l as [|x l IH]; simpl; intros l' Hl.
  - congruence.
  - returned Hl. returned Hl. inversion Hl; subst; clear Hl.
    unfold passes at 1. rewrite E. rewrite (IH _ E0). reflexivity.
Qed.

Lemma filter_filter {A} (p q : A -> bool) (l : list A) :
  List.filter p (List.filter q l) = List.filter (fun x => q x && p x) l.
Proof.
  induction l as [|x l IH]; simpl; [reflexivity|].
  destruct (q x); simpl; [destruct (p x)|]; rewrite IH; reflexivity.
Qed.

(** A loop that appends at most one line per item. *)
Lemma foldM_append {A} (body : list str -> A -> result (list str))
    (keep : A -> bool) (line : A -> str) (l : list A) :
  (forall acc x acc', body acc x = Ok acc' ->
     acc' = acc ++ (if keep x then [line x] else [])) ->
  forall acc acc', foldM body acc l = Ok acc' ->
    acc' = acc ++ map line (List.filter keep l).
Proof.
  intros Hbody. induction l as [|x l IH]; simpl; intros acc acc' Hl.
  - inversion Hl. now rewrite app_nil_r.
  - returned Hl. apply Hbody in E. apply IH in Hl. subst.
    rewrite <- app_assoc. destruct (keep x); reflexivity.
Qed.

Section Classifier.

Context `{Python}.

Lemma terminal_spec (st : str) :
  st ∈ terminal <-> st = u "done" \/ st = u "closed" \/ st = u "resolved".
Proof.
  unfold terminal. rewrite !elem_of_union, !elem_of_singleton. tauto.
Qed.

(** Grouping is a stable partition: the group of [t] is the subsequence of
    the records whose type label is exactly [t]. *)
Lemma group_by_type_lookup (issues : list pydict)
    (m m' : gmap str (list pydict)) (t : str) :
  group_by_type issues m = Ok m' ->
  of_type m' t = of_type m t ++ List.filter (has_type t) issues.
Proof.
  revert m; induction issues as [|it issues IH]; simpl; intros m Hm.
  - inversion Hm. now rewrite app_nil_r.
  - returned Hm. rewrite (IH _ Hm). unfold has_type at 2. rewrite E.
    unfold of_type. destruct (decide (a = t)) as [->|Hne].
    + rewrite lookup_insert_eq. rewrite bool_decide_eq_true_2 by done.
      simpl. now rewrite <- app_assoc.
    + rewrite lookup_insert_ne by done.
      rewrite bool_decide_eq_false_2 by done. reflexivity.
Qed.

Lemma group_by_type_empty (issues : list pydict)
    (m' : gmap str (list pydict)) (t : str) :
  group_by_type issues ∅ = Ok m' ->
  of_type m' t = List.filter (has_type t) issues.
Proof.
  intros Hm. rewrite (group_by_type_lookup _ _ _ t Hm).
  unfold of_type. now rewrite lookup_empty.
Qed.

End Classifier.

(** *** Record classifier *)

Section Status.

Context `{Python}.

Lemma strip_empty : strip [] = [].
Proof. reflexivity. Qed.

Lemma is_open_returns (r : pydict) (st : str) :
  issue_status_name r = Ok st ->
  is_open r = Ok (negb (bool_decide (lower st ∈ terminal))).
Proof. intros Hst. unfold is_open. now rewrite Hst. Qed.

(** C4. A record is closed exactly when its lower-cased status name is
    "done", "closed" or "resolved", and open for every other status name, the
    empty one included.  The status name is the trimmed primary name of the
    status; when that name is missing or empty it is the trimmed name of the
    status category, and the empty string when that is missing too. *)
Theorem open_iff_status_not_terminal (r : pydict) :
  (forall st, issue_status_name r = Ok st ->
     (is_open r = Ok false <->
        lower st = u "done" \/ lower st = u "closed" \/ lower st = u "resolved")
     /\ (is_open r = Ok true <->
          ~ (lower st = u "done" \/ lower st = u "closed"
             \/ lower st = u "resolved")))
  /\ (forall f status,
        por (get r (u "fields")) empty_dict = VDict f ->
        por (get f (u "status")) empty_dict = VDict status ->
        (forall name, get status (u "name") = VStr name -> name <> [] ->
           issue_status_name r = Ok (strip name))
        /\ (forall category cname,
              truthy (get status (u "name")) = false ->
              get_or status (u "statusCategory") empty_dict = VDict category ->
              por (get category (u "name")) empty_str = VStr cname ->
              issue_status_name r = Ok (strip cname))
        /\ (forall category,
              truthy (get status (u "name")) = false ->
              get_or status (u "statusCategory") empty_dict = VDict category ->
              truthy (get category (u "name")) = false ->
              issue_status_name r = Ok []))
  /\ (lower [] <> u "done" -> lower [] <> u "closed" ->
      lower [] <> u "resolved" ->
      issue_status_name r = Ok [] -> is_open r = Ok true).
Proof.
  split; [|split].
  - intros st Hst. rewrite (is_open_returns _ _ Hst), <- terminal_spec.
    destruct (decide (lower st ∈ terminal)) as [Hin|Hout].
    + rewrite bool_decide_eq_true_2 by done. simpl.
      split; split; intros Hx; done.
    + rewrite bool_decide_eq_false_2 by done. simpl.
      split; split; intros Hx; done.
  - intros f status Hf Hs.
    assert (Hpre : issue_status_name r
                   = (let name := get status (u "name") in
                      if truthy name then call_strip name
                      else
                        let cat := get_or status (u "statusCategory") empty_dict in
                        let! cname := call_get cat (u "name") in
                        call_strip (por cname empty_str))).
    { unfold issue_status_name.
      now rewrite Hf, call_get_dict, bind_ret, Hs, call_get_dict, bind_ret,
        call_get_or_dict, bind_ret. }
    cbv zeta in Hpre.
    split; [|split].
    + intros name Hname Hne. rewrite Hpre, Hname. simpl.
      rewrite bool_decide_eq_false_2 by done. reflexivity.
    + intros category cname Hfalsy Hcat Hcname.
      now rewrite Hpre, Hfalsy, Hcat, call_get_dict, bind_ret, Hcname.
    + intros category Hfalsy Hcat Hcname.
      rewrite Hpre, Hfalsy, Hcat, call_get_dict, bind_ret.
      unfold por. now rewrite Hcname.
  - intros H1 H2 H3 Hst. rewrite (is_open_returns _ _ Hst).
    rewrite bool_decide_eq_false_2; [reflexivity|].
    rewrite terminal_spec. tauto.
Qed.

End Status.

(** *** Root resolver *)

Section Root.

Lemma index_by_key_lookup (issues : list pydict) :
  Forall (fun i => record_shaped i = true) issues ->
  forall m : gmap str pydict,
  exists m', index_by_key issues m = Ok m'
    /\ forall h, m' !! h = match last (List.filter (key_is h) issues) with
                           | Some r => Some r
                           | None => m !! h
                           end.
Proof.
  induction 1 as [|i issues Hi _ IH]; intros m; simpl.
  - eauto.
  - unfold record_shaped in Hi. apply andb_true_iff in Hi as [Hk _].
    assert (Hskip : forall m0 : gmap str pydict,
               (forall k, issue_key i <> VStr k) ->
               exists m', index_by_key issues m0 = Ok m'
                 /\ forall h, m' !! h
                      = match last (List.filter (key_is h) (i :: issues)) with
                        | Some r => Some r
                        | None => m0 !! h
                        end).
    { intros m0 Hno. destruct (IH m0) as (m' & Hm' & Hl). exists m'.
      split; [done|]. intros h. rewrite Hl. simpl. unfold key_is at 2.
      destruct (issue_key i); try reflexivity. now destruct (Hno s). }
    destruct (issue_key i) as [| | | | k | |] eqn:Ek; try discriminate;
      try (apply Hskip; congruence).
    destruct (IH (<[k := i]> m)) as (m' & Hm' & Hl). exists m'.
    split; [done|]. intros h. rewrite Hl. simpl. unfold key_is at 2.
    rewrite Ek. destruct (decide (k = h)) as [->|Hne].
    + rewrite bool_decide_eq_true_2 by done. rewrite last_cons.
      rewrite lookup_insert_eq.
      now destruct (last (List.filter (key_is h) issues)).
    + rewrite bool_decide_eq_false_2 by done.
      now rewrite lookup_insert_ne.
Qed.

Lemma first_parentless_find (issues : list pydict) :
  Forall (fun i => record_shaped i = true) issues ->
  first_parentless issues = Ok (List.find parentless issues).
Proof.
  induction 1 as [|i issues Hi _ IH]; simpl; [reflexivity|].
  unfold record_shaped in Hi. apply andb_true_iff in Hi as [_ Hp].
  unfold parentless at 1. destruct (parent_key i) as [pk|]; [|discriminate].
  simpl. destruct (truthy pk); simpl; [exact IH | reflexivity].
Qed.

Lemma determine_root_eq (issues : list pydict) (hint : option str) :
  Forall (fun i => record_shaped i = true) issues ->
  determine_root issues hint
  = Ok (match match hint with
              | Some h => if truthy (VStr h)
                          then last (List.filter (key_is h) issues) else None
              | None => None
              end with
        | Some r => Some r
        | None => match List.find parentless issues with
                  | Some it => Some it
                  | None => head issues
                  end
        end).
Proof.
  intros Hshape. unfold determine_root.
  destruct (index_by_key_lookup issues Hshape ∅) as (m & -> & Hm).
  rewrite bind_ret, (first_parentless_find issues Hshape), bind_ret.
  destruct hint as [h|]; [|now destruct (List.find parentless issues)].
  destruct (truthy (VStr h)); [|now destruct (List.find parentless issues)].
  rewrite Hm, lookup_empty.
  destruct (last (List.filter (key_is h) issues)); [reflexivity|].
  now destruct (List.find parentless issues).
Qed.

Lemma find_head_Some {A} (p : A -> bool) (l : list A) :
  l <> [] ->
  exists r, match List.find p l with Some it => Some it | None => head l end
            = Some r.
Proof.
  destruct l as [|x l]; [done|]. intros _.
  destruct (List.find p (x :: l)); simpl; eauto.
Qed.

(** C3. The resolver follows the tie-break order.  A non-empty hint that is
    the key of an input record selects that record (the last one, should
    several carry the key), whatever the parent structure; otherwise the first
    record without a parent reference is returned; otherwise the first
    record.  The result is absent exactly when the input is empty, so every
    non-empty input has a root. *)
Theorem resolve_root_tie_break (issues : list pydict) :
  Forall (fun i => record_shaped i = true) issues ->
  (forall h r, h <> [] -> last (List.filter (key_is h) issues) = Some r ->
     determine_root issues (Some h) = Ok (Some r))
  /\ (forall h r, h <> [] -> r ∈ issues -> key_is h r = true ->
       (forall r', r' ∈ issues -> key_is h r' = true -> r' = r) ->
       determine_root issues (Some h) = Ok (Some r))
  /\ (forall hint r, no_hit hint issues ->
       List.find parentless issues = Some r ->
       determine_root issues hint = Ok (Some r))
  /\ (forall hint, no_hit hint issues ->
       List.find parentless issues = None ->
       determine_root issues hint = Ok (head issues))
  /\ (forall hint, determine_root issues hint = Ok None <-> issues = [])
  /\ (forall hint, issues <> [] ->
       exists r, determine_root issues hint = Ok (Some r)).
Proof.
  intros Hshape.
  assert (Hhit : forall h r, h <> [] ->
            last (List.filter (key_is h) issues) = Some r ->
            determine_root issues (Some h) = Ok (Some r)).
  { intros h r Hh Hlast. rewrite determine_root_eq by done. simpl.
    rewrite bool_decide_eq_false_2 by done. simpl. now rewrite Hlast. }
  assert (Hmiss : forall hint, no_hit hint issues ->
            determine_root issues hint
            = Ok (match List.find parentless issues with
                  | Some it => Some it
                  | None => head issues
                  end)).
  { intros hint Hno. rewrite determine_root_eq by done.
    destruct hint as [h|]; [|reflexivity]. simpl in Hno.
    destruct Hno as [-> | Hf]; [reflexivity|].
    rewrite Hf. now destruct (truthy (VStr h)). }
  assert (Hsome : forall hint, issues <> [] ->
            exists r, determine_root issues hint = Ok (Some r)).
  { intros hint Hne. rewrite determine_root_eq by done.
    destruct (match hint with
              | Some h => if truthy (VStr h)
                          then last (List.filter (key_is h) issues) else None
              | None => None
              end); [eauto|].
    destruct (find_head_Some parentless issues Hne) as (r & ->). eauto. }
  repeat split.
  - exact Hhit.
  - intros h r Hh Hin Hkey Huniq. apply Hhit; [done|].
    assert (Hin' : r ∈ List.filter (key_is h) issues).
    { apply list_elem_of_In, filter_In. split; [now apply list_elem_of_In|done]. }
    destruct (last (List.filter (key_is h) issues)) as [r'|] eqn:El.
    + f_equal. apply Huniq.
      * apply last_Some_elem_of, list_elem_of_In, filter_In in El as [? _].
        now apply list_elem_of_In.
      * now apply last_Some_elem_of, list_elem_of_In, filter_In in El as [_ ?].
    + apply last_None in El. rewrite El in Hin'. now apply elem_of_nil in Hin'.
  - intros hint r Hno Hfind. now rewrite Hmiss, Hfind.
  - intros hint Hno Hfind. now rewrite Hmiss, Hfind.
  - intros Hnone. destruct issues as [|i issues]; [done|].
    destruct (Hsome hint) as (r & Hr); [done|]. congruence.
  - intros ->. rewrite determine_root_eq by done.
    destruct hint as [h|]; [destruct (truthy (VStr h))|]; reflexivity.
  - exact Hsome.
Qed.

End Root.

(** *** Date normalizer *)

Section Dates.

Context `{Python}.

Lemma startswith_app (p s : str) : startswith p (p ++ s) = true.
Proof. induction p as [|a p IH]; simpl; [done|]. now rewrite N.eqb_refl. Qed.

Lemma replace_from_absent (c0 : char) (old new x : str) :
  c0 ∉ x -> replace_from (c0 :: old) new 0 x = x.
Proof.
  induction x as [|c x IH]; intros Hx; [reflexivity|].
  apply not_elem_of_cons in Hx as [Hc Hx]. cbn [replace_from].
  assert (startswith (c0 :: old) (c :: x) = false) as ->.
  { cbn [startswith]. apply andb_false_intro1. now apply N.eqb_neq. }
  f_equal. now apply IH.
Qed.

Lemma replace_from_suffix (c0 : char) (old new x : str) :
  c0 ∉ x ->
  replace_from (c0 :: old) new 0 (x ++ c0 :: old)
  = x ++ new ++ replace_from (c0 :: old) new (length old) old.
Proof.
  induction x as [|c x IH]; intros Hx.
  - pose proof (startswith_app (c0 :: old) []) as Hs.
    rewrite app_nil_r in Hs. cbn [app replace_from]. now rewrite Hs.
  - apply not_elem_of_cons in Hx as [Hc Hx]. cbn [app replace_from].
    assert (startswith (c0 :: old) (c :: x ++ c0 :: old) = false) as ->.
    { cbn [startswith]. apply andb_false_intro1. now apply N.eqb_neq. }
    f_equal. now apply IH.
Qed.

Lemma replace_no_plus (new x : str) :
  43%N ∉ x -> replace (u "+0000") new x = x.
Proof. apply (replace_from_absent 43 [48; 48; 48; 48]%N). Qed.

Lemma replace_offset (x : str) :
  43%N ∉ x ->
  replace (u "+0000") (u "+00:00") (x ++ u "+0000") = x ++ u "+00:00".
Proof.
  intros Hx. unfold replace. change (u "+0000") with [43; 48; 48; 48; 48]%N.
  now rewrite replace_from_suffix.
Qed.

Lemma endswith_snoc (c : char) (x : str) : endswith [c] (x ++ [c]) = true.
Proof.
  unfold endswith. rewrite rev_app_distr. simpl. now rewrite N.eqb_refl.
Qed.

Lemma iso_text_Z (x : str) :
  43%N ∉ x -> iso_text (x ++ u "Z") = x ++ u "+00:00".
Proof.
  intros Hx. unfold iso_text. change (u "Z") with [90%N].
  rewrite replace_no_plus.
  - rewrite endswith_snoc. now rewrite removelast_last.
  - intros [?|Hz]%elem_of_app; [done|].
    apply list_elem_of_In in Hz. simpl in Hz. now destruct Hz.
Qed.

Lemma iso_text_offset (x : str) :
  43%N ∉ x -> iso_text (x ++ u "+0000") = x ++ u "+00:00".
Proof.
  intros Hx. unfold iso_text. rewrite replace_offset by done.
  unfold endswith. rewrite rev_app_distr. reflexivity.
Qed.

Lemma truthy_text (s : str) : s <> [] -> truthy (VStr s) = true.
Proof. intros Hs. simpl. now rewrite bool_decide_eq_false_2. Qed.

Lemma fmt_date_text (raw tz fmt : str) :
  raw <> [] ->
  fmt_date (VStr raw) tz fmt
  = match fmt_date_try (VStr raw) tz fmt with
    | Some out => VStr out
    | None => VStr raw
    end.
Proof.
  intros Hraw. unfold fmt_date. simpl truthy.
  now rewrite bool_decide_eq_false_2.
Qed.

(** C5. The formatter never raises: it is a total function into values.
    Empty input gives the empty string for every zone.  A trailing "Z" and a
    "+0000" offset reach the parser as "+00:00".  A parsed timestamp is
    rendered with the date-only format, after conversion when a zone name is
    given and the zone database is there; a non-empty text the parser
    rejects comes back unchanged, and so is never the empty string. *)
Theorem format_date_total (tz : str) :
  fmt_date (VStr []) tz default_fmt = VStr []
  /\ fmt_date VNone tz default_fmt = VStr []
  /\ default_fmt = u "%Y-%m-%d"
  /\ (forall x, 43%N ∉ x ->
        iso_text (x ++ u "Z") = x ++ u "+00:00"
        /\ iso_text (x ++ u "+0000") = x ++ u "+00:00")
  /\ (forall raw dt out,
        raw <> [] ->
        fromisoformat (iso_text raw) = Some dt ->
        tz = [] \/ ZoneInfo = None ->
        strftime dt default_fmt = Some out ->
        fmt_date (VStr raw) tz default_fmt = VStr out)
  /\ (forall raw dt zone z dt' out,
        raw <> [] ->
        fromisoformat (iso_text raw) = Some dt ->
        tz <> [] -> ZoneInfo = Some zone -> zone tz = Some z ->
        astimezone dt z = Some dt' ->
        strftime dt' default_fmt = Some out ->
        fmt_date (VStr raw) tz default_fmt = VStr out)
  /\ (forall raw,
        raw <> [] ->
        fromisoformat (iso_text raw) = None ->
        fmt_date (VStr raw) tz default_fmt = VStr raw
        /\ fmt_date (VStr raw) tz default_fmt <> VStr [])
  /\ (forall v,
        fmt_date v tz default_fmt = VStr []
        \/ fmt_date v tz default_fmt = v
        \/ exists dt out, strftime dt default_fmt = Some out
                          /\ fmt_date v tz default_fmt = VStr out).
Proof.
  split; [reflexivity|]. split; [reflexivity|]. split; [reflexivity|].
  split; [|split; [|split; [|split]]].
  - intros x Hx. split; [now apply iso_text_Z | now apply iso_text_offset].
  - intros raw dt out Hraw Hparse Hzone Hout. rewrite fmt_date_text by done.
    unfold fmt_date_try. rewrite Hparse.
    destruct Hzone as [-> | ->].
    + change (truthy (VStr [])) with false. cbv iota. now rewrite Hout.
    + destruct (truthy (VStr tz)); now rewrite Hout.
  - intros raw dt zone z dt' out Hraw Hparse Htz Hzi Hz Hconv Hout.
    rewrite fmt_date_text by done. unfold fmt_date_try.
    now rewrite Hparse, truthy_text, Hzi, Hz, Hconv, Hout.
  - intros raw Hraw Hparse. rewrite fmt_date_text by done.
    unfold fmt_date_try. rewrite Hparse. split; congruence.
  - intros v. unfold fmt_date. destruct (truthy v); simpl; [|now left].
    right. destruct (fmt_date_try v tz default_fmt) as [out|] eqn:Etry;
      [right | now left].
    unfold fmt_date_try in Etry. destruct v; try discriminate.
    destruct (fromisoformat (iso_text s)) as [dt|]; [|discriminate].
    match type of Etry with
    | match ?c with _ => _ end = _ =>
        destruct c as [dt'|]; [|discriminate]
    end.
    eauto.
Qed.

(** C9, as amended.  When the zone database is there, a zone name it does not
    know sends a well-formed timestamp down the path of a parse failure: the
    raw text comes back, not the rendered date. *)
Theorem unknown_zone_falls_back (raw tz : str) (dt : datetime)
    (zone : str -> option tzinfo) :
  fromisoformat (iso_text raw) = Some dt ->
  tz <> [] ->
  ZoneInfo = Some zone ->
  zone tz = None ->
  fmt_date (VStr raw) tz default_fmt = VStr raw.
Proof.
  intros Hparse Htz Hzi Hz. destruct raw as [|c raw]; [reflexivity|].
  rewrite fmt_date_text by done. unfold fmt_date_try.
  now rewrite Hparse, truthy_text, Hzi, Hz.
Qed.

End Dates.

(** C9 as stated fails where the [zoneinfo] import failed: no zone is known
    there, the guard [if tzname and ZoneInfo] skips the conversion, and the
    date is rendered. *)
Lemma unknown_zone_may_render : ~ unknown_zone_yields_raw.
Proof.
  intros Hclaim.
  pose (raw := u "2024-03-05T10:00:00Z").
  assert (Hparse : is_Some (@fromisoformat Host.no_zoneinfo (iso_text raw))).
  { vm_compute. eauto. }
  destruct Hparse as [dt Hparse].
  specialize (Hclaim Host.no_zoneinfo raw (u "Mars/Olympus") dt Hparse).
  assert (Hgo : @fmt_date Host.no_zoneinfo (VStr raw) (u "Mars/Olympus")
                  default_fmt = VStr (u "2024-03-05")).
  { vm_compute. reflexivity. }
  rewrite Hgo in Hclaim.
  assert (Hne : VStr (u "2024-03-05") <> VStr raw).
  { vm_compute. discriminate. }
  apply Hne, Hclaim.
  - vm_compute. discriminate.
  - unfold known_zone. simpl. tauto.
Qed.

(** *** Report renderer *)

Lemma dropwhile_stop (p : char -> bool) (c : char) (s : str) :
  p c = false -> dropwhile p (c :: s) = c :: s.
Proof. intros Hc. simpl. now rewrite Hc. Qed.

Lemma strip_by_id (p : char -> bool) (s : str) (c d : char) :
  head s = Some c -> last s = Some d -> p c = false -> p d = false ->
  strip_by p s = s.
Proof.
  intros Hhead Hlast Hc Hd. unfold strip_by, lstrip_by, rstrip_by.
  destruct s as [|c' s]; [discriminate|]. injection Hhead as ->.
  rewrite dropwhile_stop by done.
  apply last_Some in Hlast as [s' Hs']. rewrite Hs', rev_app_distr.
  change (rev [d] ++ rev s') with (d :: rev s').
  rewrite dropwhile_stop by done.
  change (d :: rev s') with (rev [d] ++ rev s').
  now rewrite <- rev_app_distr, rev_involutive.
Qed.

Section Report.

Context `{Python}.

Lemma section_extends (by_type : gmap str (list pydict)) (cfg : gmap str str)
    (lines lines' : list str) (header type_name : str) (cols : list str) :
  section by_type cfg lines header type_name cols = Ok lines' ->
  exists added, lines' = lines ++ added.
Proof.
  unfold section. intros Hs. returned Hs. returned Hs.
  injection Hs as Hs. subst lines'. rewrite <- !app_assoc. eauto.
Qed.

Lemma raid_sections_extend (by_type : gmap str (list pydict))
    (cfg : gmap str str) (lines lines' : list str) (t1 t2 t3 t4 t5 : str) :
  raid_sections by_type cfg lines t1 t2 t3 t4 t5 = Ok lines' ->
  exists added, lines' = lines ++ added.
Proof.
  unfold raid_sections. intros Hs. do 4 returned Hs.
  repeat match goal with
         | E : section _ _ _ _ _ _ = Ok _ |- _ =>
             apply section_extends in E as [? ->]
         end.
  rewrite <- !app_assoc. eauto.
Qed.

(** What a returning [report_lines] has computed on the way. *)
Lemma report_lines_Ok (issues : list pydict) (root : pydict)
    (cfg : gmap str str) (tzname title : str) (lines : list str) :
  report_lines issues root cfg tzname = Ok (title, lines) ->
  exists root_type root_summary weekly_field milestone_type target_end rag
         by_type weekly_lines milestone_lines rest,
    issue_type root = Ok root_type
    /\ field_text root (u "summary") = Ok root_summary
    /\ cfg_get cfg (u "WEEKLY_UPDATE_FIELD") = Ok weekly_field
    /\ cfg_get cfg (u "MILESTONE_TYPE_NAME") = Ok milestone_type
    /\ cfg_get cfg (u "MILESTONE_TARGET_END_FIELD") = Ok target_end
    /\ cfg_get cfg (u "MILESTONE_RAG_FIELD") = Ok rag
    /\ group_by_type issues ∅ = Ok by_type
    /\ weekly_updates by_type root root_type cfg weekly_field = Ok weekly_lines
    /\ upcoming_milestones by_type milestone_type target_end rag tzname
       = Ok milestone_lines
    /\ title = strip_chars (u " —")
                 (str_of (issue_key root) ++ u " — " ++ str_of root_summary)
    /\ lines = u "Weekly updates:" :: weekly_lines
               ++ blank :: u "Upcoming Milestones:" :: milestone_lines
               ++ blank :: rest.
Proof.
  unfold report_lines. intros Hr.
  apply bind_Ok in Hr as (root_type & Htype & Hr).
  apply bind_Ok in Hr as (root_summary & Hsummary & Hr).
  apply bind_Ok in Hr as (weekly_field & Hwf & Hr).
  apply bind_Ok in Hr as (milestone_type & Hmt & Hr).
  apply bind_Ok in Hr as (target_end & Hte & Hr).
  apply bind_Ok in Hr as (rag & Hrag & Hr).
  do 5 returned Hr.
  apply bind_Ok in Hr as (by_type & Hgroup & Hr).
  apply bind_Ok in Hr as (weekly_lines & Hweekly & Hr).
  apply bind_Ok in Hr as (milestone_lines & Hmilestones & Hr).
  returned Hr. apply bind_Ok in Hr as (final & Hraid & Hr).
  injection Hr as Ht Hl. subst title lines.
  assert (exists added, final = (((((([] ++ [u "Weekly updates:"])
                          ++ weekly_lines) ++ [blank])
                          ++ [u "Upcoming Milestones:"]) ++ milestone_lines)
                          ++ [blank]) ++ added) as (rest & Hfinal).
  { destruct (bool_decide _) in Hraid; eapply raid_sections_extend, Hraid. }
  subst final.
  exists root_type, root_summary, weekly_field, milestone_type, target_end,
    rag, by_type, weekly_lines, milestone_lines, rest.
  repeat split; try done.
  simpl. rewrite <- !app_assoc. reflexivity.
Qed.

Lemma build_report_Ok (issues : list pydict) (root : pydict)
    (cfg : gmap str str) (tzname title body : str) :
  build_report issues root cfg tzname = Ok (title, body) ->
  exists lines,
    report_lines issues root cfg tzname = Ok (title, lines)
    /\ body = (u "# " ++ title ++ newline ++ newline)
              ++ rstrip (join newline lines) ++ newline.
Proof.
  unfold build_report. intros Hb. apply bind_Ok in Hb as ([t lines] & Hr & Hb).
  injection Hb as Ht Hbody. subst t body. eauto.
Qed.

(** The title is exactly "{key} — {summary}" when the key starts, and the
    summary ends, with a character that is neither a space nor an em dash:
    [strip(" —")] then finds nothing to take at either end. *)
Theorem title_is_exact_between_clean_ends (issues : list pydict)
    (root : pydict) (cfg : gmap str str) (tz title body : str)
    (summary : value) (c d : char) :
  build_report issues root cfg tz = Ok (title, body) ->
  field_text root (u "summary") = Ok summary ->
  head (str_of (issue_key root)) = Some c ->
  last (str_of summary) = Some d ->
  char_in (u " —") c = false -> char_in (u " —") d = false ->
  title = str_of (issue_key root) ++ u " — " ++ str_of summary.
Proof.
  intros Hb Hsummary Hc Hd Hpc Hpd.
  apply build_report_Ok in Hb as (lines & Hr & _).
  apply report_lines_Ok in Hr
    as (? & summary' & ? & ? & ? & ? & ? & ? & ? & ? & _ & Hs' & _ & _ & _ & _
        & _ & _ & _ & Htitle & _).
  assert (summary' = summary) as -> by congruence.
  rewrite Htitle. unfold strip_chars.
  apply (strip_by_id _ _ c d); try done.
  - destruct (str_of (issue_key root)); [discriminate|exact Hc].
  - rewrite !last_app, Hd. reflexivity.
Qed.

End Report.

Section Sections_correct.

Context `{Python}.

Lemma text_Ok (it : pydict) (key : str) (v : value) :
  field_text it key = Ok v -> text it key = v.
Proof. intros Hv. unfold text. now rewrite Hv. Qed.

Lemma status_text_Ok (it : pydict) (st : str) :
  issue_status_name it = Ok st -> status_text it = st.
Proof. intros Hst. unfold status_text. now rewrite Hst. Qed.

Lemma cfg_get_Some (cfg : gmap str str) (k v : str) :
  cfg !! k = Some v -> cfg_get cfg k = Ok v.
Proof. intros Hk. unfold cfg_get. now rewrite Hk. Qed.

Lemma weekly_loop (weekly_field : str) (projects : list pydict)
    (weekly_lines : list str) :
  foldM (fun weekly_lines p =>
           let! wu := field_text p weekly_field in
           if truthy wu then
             let key := issue_key p in
             let! summary := field_text p (u "summary") in
             Ok (weekly_lines
                 ++ [u "- **" ++ str_of key ++ u " — " ++ str_of summary
                     ++ u "**: " ++ str_of wu])
           else Ok weekly_lines)
        [] projects = Ok weekly_lines ->
  weekly_lines
  = map (weekly_bullet weekly_field)
      (List.filter (fun p => truthy (text p weekly_field)) projects).
Proof.
  intros Hloop.
  apply (foldM_append _ (fun p => truthy (text p weekly_field))
           (weekly_bullet weekly_field)) in Hloop; [exact Hloop|].
  intros acc p acc' Hbody. apply bind_Ok in Hbody as (wu & Hwu & Hbody).
  rewrite (text_Ok _ _ _ Hwu). destruct (truthy wu).
  - apply bind_Ok in Hbody as (summary & Hsummary & Hbody).
    injection Hbody as Hbody. subst acc'. unfold weekly_bullet.
    now rewrite (text_Ok _ _ _ Hwu), (text_Ok _ _ _ Hsummary).
  - injection Hbody as Hbody. subst acc'. now rewrite app_nil_r.
Qed.

(** With a root of the initiative type, compared in lower case, the Weekly
    updates section has exactly one bullet "- **{key} — {summary}**: {update}"
    for each open record whose trimmed type label is exactly the configured
    project type and whose weekly update is non-empty, in input order, and
    the single line "- None" when there is none.  With any other root it is
    the single bullet "- {update}" of the root's own weekly update, or
    "- None" when that is empty. *)
Theorem weekly_updates_section (issues : list pydict) (root : pydict)
    (cfg : gmap str str) (tz title : str) (lines : list str)
    (root_type initiative project weekly_field : str) :
  report_lines issues root cfg tz = Ok (title, lines) ->
  issue_type root = Ok root_type ->
  cfg !! u "INITIATIVE_TYPE_NAME" = Some initiative ->
  cfg !! u "PROJECT_TYPE_NAME" = Some project ->
  cfg !! u "WEEKLY_UPDATE_FIELD" = Some weekly_field ->
  exists rest,
    lines = u "Weekly updates:"
            :: weekly_section issues root root_type initiative project
                 weekly_field
            ++ blank :: u "Upcoming Milestones:" :: rest.
Proof.
  intros Hr Htype Hinit Hproject Hweekly.
  apply report_lines_Ok in Hr
    as (rt & ? & wf & ? & ? & ? & by_type & weekly_lines & milestone_lines
        & rest & Hrt & _ & Hwf & _ & _ & _ & Hgroup & Hw & _ & _ & Hlines).
  assert (rt = root_type) as -> by congruence.
  rewrite (cfg_get_Some _ _ _ Hweekly) in Hwf. injection Hwf as Hwf. subst wf.
  exists (milestone_lines ++ blank :: rest). rewrite Hlines. do 2 f_equal.
  unfold weekly_updates in Hw.
  rewrite (cfg_get_Some _ _ _ Hinit), bind_ret in Hw. unfold weekly_section.
  destruct (bool_decide (lower root_type = lower initiative)).
  - rewrite (cfg_get_Some _ _ _ Hproject), bind_ret in Hw.
    apply bind_Ok in Hw as (projects & Hopen & Hw).
    apply bind_Ok in Hw as (bullets & Hloop & Hw).
    apply filterM_Ok in Hopen. apply weekly_loop in Hloop.
    rewrite (group_by_type_empty _ _ _ Hgroup) in Hopen.
    rewrite Hopen, !filter_filter in Hloop.
    rewrite (List.filter_ext _ (qualifies project weekly_field)) in Hloop
      by (intros p; unfold qualifies, open; now rewrite andb_assoc).
    injection Hw as Hw. subst weekly_lines bullets.
    now destruct (map _ _).
  - apply bind_Ok in Hw as (wu & Hwu & Hw). injection Hw as Hw.
    subst weekly_lines. rewrite (text_Ok _ _ _ Hwu).
    now destruct (truthy wu).
Qed.

End Sections_correct.

Section Raid.

Context `{Python}.

Lemma extra_col_status (cfg : gmap str str) (it : pydict) (extra : list str) :
  extra_col cfg it extra (u "__status")
  = (let! st := issue_status_name it in Ok (extra ++ [u "Status: " ++ st])).
Proof. reflexivity. Qed.

Lemma extra_col_assignee (cfg : gmap str str) (it : pydict)
    (extra : list str) :
  extra_col cfg it extra (u "__assignee")
  = (let! who := field_text it (u "assignee") in
     Ok (if truthy who then extra ++ [u "Assignee: " ++ str_of who]
         else extra)).
Proof. reflexivity. Qed.

Lemma extra_col_risk_score (cfg : gmap str str) (it : pydict)
    (extra : list str) :
  extra_col cfg it extra (u "__risk_score")
  = (let! risk_field := cfg_get cfg (u "RISK_SCORE_FIELD") in
     let! rs := field_text it risk_field in
     Ok (if truthy rs
         then extra ++ [u "Aristocrat risk score: " ++ str_of rs]
         else extra)).
Proof. reflexivity. Qed.

(** The extras of one record, for the two column lists the script uses. *)
Lemma extras_of_columns (cfg : gmap str str) (risk_field : str)
    (with_risk : bool) (it : pydict) (extra : list str) :
  cfg !! u "RISK_SCORE_FIELD" = Some risk_field ->
  foldM (extra_col cfg it) []
    (if with_risk then risk_cols else raid_cols) = Ok extra ->
  extra = [u "Status: " ++ status_text it]
          ++ (if with_risk && truthy (text it risk_field)
              then [u "Aristocrat risk score: " ++ str_of (text it risk_field)]
              else [])
          ++ (if truthy (text it (u "assignee"))
              then [u "Assignee: " ++ str_of (text it (u "assignee"))]
              else []).
Proof.
  intros Hrisk Hfold. destruct with_risk; unfold risk_cols, raid_cols in Hfold;
    cbn [foldM] in Hfold.
  - rewrite extra_col_status in Hfold.
    apply bind_Ok in Hfold as (e1 & Hst & Hfold).
    apply bind_Ok in Hst as (st & Hst & He1). injection He1 as He1.
    rewrite extra_col_risk_score, (cfg_get_Some _ _ _ Hrisk), bind_ret in Hfold.
    apply bind_Ok in Hfold as (e2 & Hrs & Hfold).
    apply bind_Ok in Hrs as (rs & Hrs & He2). injection He2 as He2.
    rewrite extra_col_assignee in Hfold.
    apply bind_Ok in Hfold as (e3 & Hwho & Hfold).
    apply bind_Ok in Hwho as (who & Hwho & He3). injection He3 as He3.
    injection Hfold as Hfold. subst extra e3 e2 e1.
    rewrite (status_text_Ok _ _ Hst), (text_Ok _ _ _ Hrs), (text_Ok _ _ _ Hwho).
    now destruct (truthy rs), (truthy who).
  - rewrite extra_col_status in Hfold.
    apply bind_Ok in Hfold as (e1 & Hst & Hfold).
    apply bind_Ok in Hst as (st & Hst & He1). injection He1 as He1.
    rewrite extra_col_assignee in Hfold.
    apply bind_Ok in Hfold as (e3 & Hwho & Hfold).
    apply bind_Ok in Hwho as (who & Hwho & He3). injection He3 as He3.
    injection Hfold as Hfold. subst extra e3 e1.
    rewrite (status_text_Ok _ _ Hst), (text_Ok _ _ _ Hwho).
    now destruct (truthy who).
Qed.

(** C10. Every bullet of a RAID section carries "Status: {statusName}", also
    when the status name is empty; "Aristocrat risk score: ..." (Risks only)
    and "Assignee: ..." appear only with a non-empty text.  The section is its
    header, one such bullet per open record of the type, or "None", and a
    blank line. *)
Theorem raid_bullets_always_show_status (by_type : gmap str (list pydict))
    (cfg : gmap str str) (lines lines' : list str)
    (header type_name risk_field : str) (with_risk : bool) :
  cfg !! u "RISK_SCORE_FIELD" = Some risk_field ->
  section by_type cfg lines header type_name
    (if with_risk then risk_cols else raid_cols) = Ok lines' ->
  lines' = lines ++ [header ++ u ":"]
           ++ bullet_or_none
                (map (raid_bullet risk_field with_risk)
                   (List.filter open (of_type by_type type_name)))
           ++ [blank].
Proof.
  intros Hrisk Hs. unfold section in Hs.
  apply bind_Ok in Hs as (items & Hitems & Hs).
  apply bind_Ok in Hs as (rows & Hrows & Hs).
  injection Hs as Hs. subst lines'. apply filterM_Ok in Hitems.
  apply (foldM_append _ (fun _ => true) (raid_bullet risk_field with_risk))
    in Hrows.
  - assert (List.filter (fun _ : pydict => true) items = items) as Hall.
    { clear. induction items as [|x l IH]; simpl; congruence. }
    rewrite Hall in Hrows. subst rows items.
    change ([] ++ ?l) with l. rewrite <- !app_assoc.
    unfold bullet_or_none, open. now destruct (map _ _).
  - intros acc it acc' Hbody.
    apply bind_Ok in Hbody as (extra & Hextra & Hbody).
    apply bind_Ok in Hbody as (row & Hrow & Hbody).
    injection Hbody as Hbody. subst acc'. f_equal. f_equal.
    apply (extras_of_columns _ _ _ _ _ Hrisk) in Hextra.
    unfold format_item in Hrow.
    apply bind_Ok in Hrow as (summary & Hsummary & Hrow).
    injection Hrow as Hrow. subst row extra. unfold raid_bullet.
    rewrite (text_Ok _ _ _ Hsummary). do 3 f_equal.
    destruct (with_risk && truthy (text it risk_field)),
      (truthy (text it (u "assignee"))); reflexivity.
Qed.

End Raid.

(** *** Where the script departs from the specification *)

(** C1. Sections are filled by an exact lookup of the configured type name
    among the trimmed type labels: a milestone typed "milestone" is left out
    when the configured name is "Milestone", while the same record typed
    "Milestone" is listed.  The root's type, in contrast, is compared in
    lower case: a root typed "pmo initiative" still collects the weekly
    updates of the projects. *)
Theorem milestone_lookup_is_case_sensitive :
  @report_lines Host.no_tzdata [Sample.root; Sample.m_lower] Sample.root
    Sample.cfg []
  = Ok (u "PMO-1 — Launch",
        [u "Weekly updates:"; u "- None"; blank;
         u "Upcoming Milestones:"; u "None"; blank;
         u "Risks:"; u "None"; blank; u "Assumptions:"; u "None"; blank;
         u "Issues:"; u "None"; blank; u "Decisions:"; u "None"; blank;
         u "Change requests:"; u "None"; blank])
  /\ @report_lines Host.no_tzdata [Sample.root; Sample.m_exact] Sample.root
       Sample.cfg []
     = Ok (u "PMO-1 — Launch",
           [u "Weekly updates:"; u "- None"; blank;
            u "Upcoming Milestones:";
            u "- MS-3 — Cutover | Target end: - | RAG: -"; blank;
            u "Risks:"; u "None"; blank; u "Assumptions:"; u "None"; blank;
            u "Issues:"; u "None"; blank; u "Decisions:"; u "None"; blank;
            u "Change requests:"; u "None"; blank])
  /\ @report_lines Host.no_tzdata [Sample.root_lower; Sample.p1]
       Sample.root_lower Sample.cfg []
     = Ok (u "PMO-1 — Launch",
           [u "Weekly updates:"; u "- **PRJ-1 — Alpha**: On track"; blank;
            u "Upcoming Milestones:"; u "None"; blank;
            u "Risks:"; u "None"; blank; u "Assumptions:"; u "None"; blank;
            u "Issues:"; u "None"; blank; u "Decisions:"; u "None"; blank;
            u "Change requests:"; u "None"; blank]).
Proof. repeat split; vm_compute; reflexivity. Qed.

(** C6. The accessor is not total.  On a sequence whose structured element
    has a number for its first non-empty attribute, [join] raises a
    [TypeError]; on a structured object whose first non-empty attribute is a
    number, the result is that number, not a string. *)
Theorem field_text_is_partial `{Python} :
  field_text Sample.numbered_label (u "labels") = Raise TypeError
  /\ field_text Sample.numeric_option (u "customfield_size") = Ok (VInt 10001).
Proof. split; reflexivity. Qed.

(** C2. The project pool of the Weekly updates section is read by the same
    exact lookup as the milestones of C1: under an initiative root and the
    configured name "Project", an open project typed "project" that has a
    weekly update gets no bullet, and the section is the single line
    "- None"; the same record typed "Project" gets its bullet. *)
Theorem weekly_lookup_is_case_sensitive :
  @report_lines Host.no_tzdata [Sample.root; Sample.p_lower] Sample.root
    Sample.cfg []
  = Ok (u "PMO-1 — Launch",
        [u "Weekly updates:"; u "- None"; blank;
         u "Upcoming Milestones:"; u "None"; blank;
         u "Risks:"; u "None"; blank; u "Assumptions:"; u "None"; blank;
         u "Issues:"; u "None"; blank; u "Decisions:"; u "None"; blank;
         u "Change requests:"; u "None"; blank])
  /\ @report_lines Host.no_tzdata [Sample.root; Sample.p1] Sample.root
       Sample.cfg []
     = Ok (u "PMO-1 — Launch",
           [u "Weekly updates:"; u "- **PRJ-1 — Alpha**: On track"; blank;
            u "Upcoming Milestones:"; u "None"; blank;
            u "Risks:"; u "None"; blank; u "Assumptions:"; u "None"; blank;
            u "Issues:"; u "None"; blank; u "Decisions:"; u "None"; blank;
            u "Change requests:"; u "None"; blank]).
Proof. split; vm_compute; reflexivity. Qed.

(** C7. [strip(" —")] takes spaces and em dashes off both ends of the whole
    title, not only a separator left dangling by an empty side: for the key
    "PMO-1" and the summary "Phase 2 —", both non-empty, the title is
    "PMO-1 — Phase 2" and the summary's own dash is lost.  With an empty
    summary the separator is dropped, as intended.  The card title of
    [main] joins its two parts only when the first is non-empty, and so
    keeps the characters of both. *)
Theorem title_strip_takes_the_summarys_dash :
  issue_key Sample.dashed = Sample.s "PMO-1"
  /\ @field_text Host.no_tzdata Sample.dashed (u "summary")
     = Ok (Sample.s "Phase 2 —")
  /\ (exists body,
        @build_report Host.no_tzdata [Sample.dashed] Sample.dashed Sample.cfg []
        = Ok (u "PMO-1 — Phase 2", body))
  /\ (exists body,
        @build_report Host.no_tzdata [Sample.untitled] Sample.untitled
          Sample.cfg []
        = Ok (u "PMO-1", body))
  /\ @post_title Host.no_tzdata (u "Phase 2 —") (u "PMO-1")
     = u "Phase 2 — — PMO-1"
  /\ @post_title Host.no_tzdata blank (u "PMO-1") = u "PMO-1".
Proof.
  repeat split; try (vm_compute; reflexivity);
    eexists; vm_compute; reflexivity.
Qed.

(** C8. The report is not a function of its arguments alone.  A date that
    carries no offset is converted from the local zone of the process:
    with the zone argument "UTC", a milestone due on 2024-03-05 is reported
    for 2024-03-05 by a process whose local zone is UTC and for 2024-03-04
    by a process nine hours east, so that the two calls, on identical
    arguments, return different bodies.  A timestamp that carries its
    offset is rendered alike by both. *)
Theorem report_reads_the_local_zone :
  @report_lines (Host.located 0) [Sample.root; Sample.m_dated; Sample.m_stamped]
    Sample.root Sample.cfg (u "UTC")
  = Ok (u "PMO-1 — Launch",
        [u "Weekly updates:"; u "- None"; blank;
         u "Upcoming Milestones:";
         u "- MS-4 — Cutover | Target end: 2024-03-05 | RAG: -";
         u "- MS-5 — Handover | Target end: 2024-03-05 | RAG: -"; blank;
         u "Risks:"; u "None"; blank; u "Assumptions:"; u "None"; blank;
         u "Issues:"; u "None"; blank; u "Decisions:"; u "None"; blank;
         u "Change requests:"; u "None"; blank])
  /\ @report_lines (Host.located 540)
       [Sample.root; Sample.m_dated; Sample.m_stamped]
       Sample.root Sample.cfg (u "UTC")
     = Ok (u "PMO-1 — Launch",
           [u "Weekly updates:"; u "- None"; blank;
            u "Upcoming Milestones:";
            u "- MS-4 — Cutover | Target end: 2024-03-04 | RAG: -";
            u "- MS-5 — Handover | Target end: 2024-03-05 | RAG: -"; blank;
            u "Risks:"; u "None"; blank; u "Assumptions:"; u "None"; blank;
            u "Issues:"; u "None"; blank; u "Decisions:"; u "None"; blank;
            u "Change requests:"; u "None"; blank])
  /\ @build_report (Host.located 0)
       [Sample.root; Sample.m_dated; Sample.m_stamped]
       Sample.root Sample.cfg (u "UTC")
     <> @build_report (Host.located 540)
          [Sample.root; Sample.m_dated; Sample.m_stamped]
          Sample.root Sample.cfg (u "UTC").
Proof.
  repeat split; try (vm_compute; reflexivity).
  vm_compute. discriminate.
Qed.

(** *** Where the accessors and the renderer do return *)

Section Returns.

Context `{Python}.

Lemma join_values_texts (sep : str) (parts : list str) :
  join_values sep (map VStr parts) = Ok (join sep parts).
Proof.
  induction parts as [|p parts IH]; [reflexivity|].
  destruct parts as [|q parts]; [reflexivity|].
  change (map VStr (p :: q :: parts)) with (VStr p :: map VStr (q :: parts)).
  cbn [join_values]. change (map VStr (q :: parts))
    with (VStr q :: map VStr parts) at 1.
  cbv iota. now rewrite IH.
Qed.

Lemma filter_texts (parts : list str) :
  filter (fun p => truthy p = true) (map VStr parts)
  = map VStr (filter (fun p => p <> []) parts).
Proof.
  induction parts as [|p parts IH]; [reflexivity|].
  cbn [map]. rewrite !filter_cons, IH.
  destruct (decide (p = [])) as [->|Hp].
  - rewrite decide_False by (cbn; discriminate).
    now rewrite decide_False by (intros Hq; now apply Hq).
  - rewrite decide_True by (now apply truthy_text).
    now rewrite decide_True by done.
Qed.

(** The shapes of a field value on which [field_text] returns a string: a
    missing or null value, a scalar, and a sequence whose extracted parts are
    all strings.  A structured object yields its first non-empty attribute
    among displayName, name, value and id, whatever that attribute is. *)
Lemma field_text_shapes (issue f : pydict) (key : str) :
  por (get_or issue (u "fields") empty_dict) empty_dict = VDict f ->
  (has_key f key = false -> has_key f (lower key) = false ->
     field_text issue key = Ok empty_str)
  /\ (has_key f key = true ->
      match get f key with
      | VNone => field_text issue key = Ok empty_str
      | VDict d =>
          field_text issue key
          = Ok (por (por (por (por (get d (u "displayName")) (get d (u "name")))
                              (get d (u "value")))
                         (get d (u "id")))
                    empty_str)
      | VList l =>
          forall parts, map element_part l = map VStr parts ->
            field_text issue key
            = Ok (VStr (join (u ", ") (filter (fun p => p <> []) parts)))
      | v => field_text issue key = Ok (VStr (str_of v))
      end).
Proof.
  intros Hf. split.
  - intros Hk Hl. unfold field_text, field. rewrite Hf. cbn [contains].
    rewrite Hk, bind_ret. cbn [contains bind]. now rewrite Hl.
  - intros Hk.
    assert (Hfield : field issue key = Ok (get f key)).
    { unfold field. rewrite Hf. cbn [contains]. now rewrite Hk. }
    unfold field_text. rewrite Hfield, bind_ret.
    destruct (get f key) as [| | | | |l|d]; try reflexivity.
    intros parts Hparts. fold element_part.
    change (map (fun it => element_part it) l) with (map element_part l).
    now rewrite Hparts, filter_texts, join_values_texts.
Qed.

Lemma filterM_returns {A} (p : A -> result bool) (l : list A) :
  Forall (fun x => exists b, p x = Ok b) l -> exists l', filterM p l = Ok l'.
Proof.
  induction 1 as [|x l [b Hb] _ [l' IH]]; simpl; [eauto|].
  rewrite Hb, IH. simpl. eauto.
Qed.

Lemma foldM_returns {A S} (body : S -> A -> result S) (l : list A) :
  Forall (fun x => forall s, exists s', body s x = Ok s') l ->
  forall s, exists s', foldM body s l = Ok s'.
Proof.
  induction 1 as [|x l Hx _ IH]; simpl; intros s; [eauto|].
  destruct (Hx s) as [s' ->]. simpl. apply IH.
Qed.

Lemma clean_is_open (it : pydict) : clean it -> exists b, is_open it = Ok b.
Proof. intros (_ & [st Hst] & _). unfold is_open. rewrite Hst. simpl. eauto. Qed.

Lemma clean_filter (p : pydict -> bool) (l : list pydict) :
  Forall clean l -> Forall clean (List.filter p l).
Proof.
  induction 1 as [|x l Hx _ IH]; simpl; [constructor|].
  destruct (p x); [constructor|]; assumption.
Qed.

Lemma group_by_type_returns (issues : list pydict) :
  Forall clean issues ->
  forall m, exists m', group_by_type issues m = Ok m'.
Proof.
  induction 1 as [|it issues ([t Ht] & _) _ IH]; simpl; intros m; [eauto|].
  rewrite Ht. simpl. apply IH.
Qed.

Lemma open_items_return (by_type : gmap str (list pydict)) (t : str) :
  Forall clean (of_type by_type t) ->
  exists items, filterM is_open (of_type by_type t) = Ok items
                /\ Forall clean items.
Proof.
  intros Hclean. destruct (filterM_returns is_open (of_type by_type t))
    as [items Hitems].
  - eapply Forall_impl; [exact Hclean|]. apply clean_is_open.
  - exists items. split; [exact Hitems|].
    rewrite (filterM_Ok _ _ _ Hitems). now apply clean_filter.
Qed.

Lemma section_returns (by_type : gmap str (list pydict)) (cfg : gmap str str)
    (lines : list str) (header type_name : str) (with_risk : bool) :
  is_Some (cfg !! u "RISK_SCORE_FIELD") ->
  Forall clean (of_type by_type type_name) ->
  exists lines',
    section by_type cfg lines header type_name
      (if with_risk then risk_cols else raid_cols) = Ok lines'.
Proof.
  intros [risk_field Hrisk] Hclean. unfold section.
  destruct (open_items_return _ _ Hclean) as (items & -> & Hitems).
  rewrite bind_ret.
  match goal with
  | |- context [foldM ?body [] items] =>
      destruct (foldM_returns body items) with (s := @nil str) as [rows ->]
  end; [|simpl; eauto].
  eapply Forall_impl; [exact Hitems|].
  intros it (_ & [st Hst] & Htext) rows.
  destruct (Htext (u "assignee")) as [who Hwho].
  destruct (Htext risk_field) as [rs Hrs].
  destruct (Htext (u "summary")) as [summary Hsummary].
  assert (Hextra : exists extra,
             foldM (extra_col cfg it) []
               (if with_risk then risk_cols else raid_cols) = Ok extra).
  { destruct with_risk; unfold risk_cols, raid_cols; cbn [foldM].
    - rewrite extra_col_status, Hst. cbn [bind].
      rewrite extra_col_risk_score, (cfg_get_Some _ _ _ Hrisk), bind_ret, Hrs.
      cbn [bind]. rewrite extra_col_assignee, Hwho. cbn [bind]. eauto.
    - rewrite extra_col_status, Hst. cbn [bind].
      rewrite extra_col_assignee, Hwho. cbn [bind]. eauto. }
  destruct Hextra as [extra ->]. cbn [bind]. unfold format_item.
  rewrite Hsummary. cbn [bind]. eauto.
Qed.

End Returns.

Section Renderer_returns.

Context `{Python}.

Lemma weekly_updates_returns (by_type : gmap str (list pydict))
    (root : pydict) (root_type : str) (cfg : gmap str str)
    (weekly_field : str) :
  is_Some (cfg !! u "INITIATIVE_TYPE_NAME") ->
  is_Some (cfg !! u "PROJECT_TYPE_NAME") ->
  clean root ->
  (forall t, Forall clean (of_type by_type t)) ->
  exists weekly_lines,
    weekly_updates by_type root root_type cfg weekly_field = Ok weekly_lines.
Proof.
  intros [initiative Hi] [project Hp] Hroot Hgroups. unfold weekly_updates.
  rewrite (cfg_get_Some _ _ _ Hi), bind_ret.
  destruct (bool_decide (lower root_type = lower initiative)).
  - rewrite (cfg_get_Some _ _ _ Hp), bind_ret.
    destruct (open_items_return _ _ (Hgroups project)) as (items & -> & Hitems).
    rewrite bind_ret.
    match goal with
    | |- context [foldM ?body [] items] =>
        destruct (foldM_returns body items) with (s := @nil str) as [rows ->]
    end; [|simpl; eauto].
    eapply Forall_impl; [exact Hitems|].
    intros p (_ & _ & Htext) rows. destruct (Htext weekly_field) as [wu ->].
    cbn [bind]. destruct (truthy wu); [|eauto].
    destruct (Htext (u "summary")) as [summary ->]. cbn [bind]. eauto.
  - destruct Hroot as (_ & _ & Htext).
    destruct (Htext weekly_field) as [wu ->]. cbn [bind]. eauto.
Qed.

Lemma upcoming_milestones_returns (by_type : gmap str (list pydict))
    (milestone_type target_end rag tzname : str) :
  (forall t, Forall clean (of_type by_type t)) ->
  exists milestone_lines,
    upcoming_milestones by_type milestone_type target_end rag tzname
    = Ok milestone_lines.
Proof.
  intros Hgroups. unfold upcoming_milestones.
  destruct (open_items_return _ _ (Hgroups milestone_type))
    as (items & -> & Hitems).
  rewrite bind_ret.
  match goal with
  | |- context [foldM ?body [] items] =>
      destruct (foldM_returns body items) with (s := @nil str) as [rows ->]
  end; [|simpl; eauto].
  eapply Forall_impl; [exact Hitems|].
  intros m (_ & _ & Htext) rows.
  destruct (Htext (u "summary")) as [summ ->]. cbn [bind].
  destruct (Htext target_end) as [target ->]. cbn [bind].
  destruct (Htext rag) as [r ->]. cbn [bind]. eauto.
Qed.

Lemma raid_sections_return (by_type : gmap str (list pydict))
    (cfg : gmap str str) (lines : list str) (t1 t2 t3 t4 t5 : str) :
  is_Some (cfg !! u "RISK_SCORE_FIELD") ->
  (forall t, Forall clean (of_type by_type t)) ->
  exists lines', raid_sections by_type cfg lines t1 t2 t3 t4 t5 = Ok lines'.
Proof.
  intros Hrisk Hgroups. unfold raid_sections.
  destruct (section_returns by_type cfg lines (u "Risks") t1 true Hrisk
              (Hgroups t1)) as [l1 ->].
  rewrite bind_ret.
  destruct (section_returns by_type cfg l1 (u "Assumptions") t2 false Hrisk
              (Hgroups t2)) as [l2 ->].
  rewrite bind_ret.
  destruct (section_returns by_type cfg l2 (u "Issues") t3 false Hrisk
              (Hgroups t3)) as [l3 ->].
  rewrite bind_ret.
  destruct (section_returns by_type cfg l3 (u "Decisions") t4 false Hrisk
              (Hgroups t4)) as [l4 ->].
  rewrite bind_ret.
  apply (section_returns by_type cfg l4 (u "Change requests") t5 false Hrisk
           (Hgroups t5)).
Qed.

(** On a complete configuration and records on which no accessor raises,
    the renderer returns a report. *)
Lemma build_report_returns (issues : list pydict) (root : pydict)
    (cfg : gmap str str) (tzname : str) :
  complete cfg -> clean root -> Forall clean issues ->
  exists title body, build_report issues root cfg tzname = Ok (title, body).
Proof.
  intros Hcfg Hroot Hissues. unfold complete in Hcfg.
  repeat match type of Hcfg with
         | Forall _ (_ :: _) => apply Forall_cons in Hcfg as [[? ?] Hcfg]
         end.
  clear Hcfg.
  destruct (group_by_type_returns issues Hissues ∅) as [by_type Hgroup].
  assert (Hgroups : forall t, Forall clean (of_type by_type t)).
  { intros t. rewrite (group_by_type_empty _ _ t Hgroup).
    now apply clean_filter. }
  pose proof Hroot as ([root_type Htype] & _ & Htext).
  destruct (Htext (u "summary")) as [root_summary Hsummary].
  unfold build_report, report_lines.
  rewrite Htype, bind_ret, Hsummary, bind_ret.
  repeat match goal with
         | Hk : cfg !! ?k = Some _ |- context [cfg_get cfg ?k] =>
             rewrite (cfg_get_Some _ _ _ Hk), bind_ret
         end.
  rewrite Hgroup, bind_ret.
  match goal with
  | |- context [weekly_updates ?a ?b ?c ?d ?e] =>
      destruct (weekly_updates_returns a b c d e) as [weekly_lines ->];
        eauto
  end.
  rewrite bind_ret.
  match goal with
  | |- context [upcoming_milestones ?a ?b ?c ?d ?e] =>
      destruct (upcoming_milestones_returns a b c d e Hgroups)
        as [milestone_lines ->]
  end.
  rewrite bind_ret.
  repeat match goal with
         | Hk : cfg !! ?k = Some _ |- context [cfg_get cfg ?k] =>
             rewrite (cfg_get_Some _ _ _ Hk), bind_ret
         end.
  match goal with
  | |- context [raid_sections ?a ?b ?c ?t1 ?t2 ?t3 ?t4 ?t5] =>
      destruct (raid_sections_return a b c t1 t2 t3 t4 t5) as [final Hfinal];
        eauto
  end.
  rewrite Hfinal. destruct (bool_decide _); rewrite bind_ret; cbn [bind]; eauto.
Qed.

End Renderer_returns.

(** *** The theorems at work on sample data *)

Lemma weekly_section_of_sample :
  @weekly_section Host.no_tzdata Sample.issues Sample.root
    (u "PMO Initiative") (u "PMO Initiative") (u "Project")
    (u "customfield_weekly_update")
  = [u "- **PRJ-1 — Alpha**: On track"]
  /\ @weekly_section Host.no_tzdata [Sample.leaf] Sample.leaf
       (u "Project") (u "PMO Initiative") (u "Project")
       (u "customfield_weekly_update")
     = [u "- Blocked on vendor"].
Proof. split; vm_compute; reflexivity. Qed.

Lemma weekly_updates_section_sample :
  exists rest,
    Sample.lines
    = u "Weekly updates:"
      :: @weekly_section Host.no_tzdata Sample.issues Sample.root
           (u "PMO Initiative") (u "PMO Initiative") (u "Project")
           (u "customfield_weekly_update")
      ++ blank :: u "Upcoming Milestones:" :: rest.
Proof.
  apply (@weekly_updates_section Host.no_tzdata Sample.issues Sample.root
           Sample.cfg [] Sample.title);
    vm_compute; reflexivity.
Defined.

Lemma resolve_root_sample :
  determine_root Sample.issues (Some (u "PRJ-2")) = Ok (Some Sample.p2)
  /\ determine_root Sample.issues None = Ok (Some Sample.root)
  /\ determine_root [Sample.p1; Sample.p2] (Some (u "PMO-1"))
     = Ok (Some Sample.p1).
Proof.
  assert (Hshape : Forall (fun i => record_shaped i = true) Sample.issues).
  { repeat constructor. }
  assert (Hshape' : Forall (fun i => record_shaped i = true)
                      [Sample.p1; Sample.p2]).
  { repeat constructor. }
  destruct (resolve_root_tie_break Sample.issues Hshape)
    as (Hhit & _ & Hparentless & _).
  destruct (resolve_root_tie_break [Sample.p1; Sample.p2] Hshape')
    as (_ & _ & _ & Hfirst & _).
  split; [|split].
  - apply Hhit; [vm_compute; discriminate | vm_compute; reflexivity].
  - apply Hparentless; [exact I | vm_compute; reflexivity].
  - apply (Hfirst (Some (u "PMO-1"))); [right|]; vm_compute; reflexivity.
Defined.

Lemma open_iff_status_not_terminal_sample :
  @issue_status_name Host.no_tzdata Sample.p3 = Ok (u "Done")
  /\ @is_open Host.no_tzdata Sample.p3 = Ok false
  /\ @is_open Host.no_tzdata Sample.r1 = Ok true.
Proof.
  destruct (@open_iff_status_not_terminal Host.no_tzdata Sample.p3)
    as (Hopen & Hname & _).
  destruct (@open_iff_status_not_terminal Host.no_tzdata Sample.r1)
    as (_ & _ & Hempty).
  assert (Hdone : @issue_status_name Host.no_tzdata Sample.p3 = Ok (u "Done")).
  { let f := eval vm_compute in
               (match get Sample.p3 (u "fields") with
                | VDict d => d
                | _ => []
                end) in
    destruct (Hname f [(u "name", Sample.s "Done")]) as (Hprimary & _);
      [vm_compute; reflexivity ..|].
    rewrite (Hprimary (u "Done"));
      [vm_compute; reflexivity | vm_compute; reflexivity
      | vm_compute; discriminate]. }
  split; [exact Hdone|split].
  - apply (proj1 (Hopen _ Hdone)). left. vm_compute. reflexivity.
  - apply Hempty; vm_compute; try reflexivity; discriminate.
Defined.

Lemma format_date_total_sample :
  @fmt_date Host.no_tzdata (VStr (u "2024-03-05T10:00:00Z")) [] default_fmt
  = VStr (u "2024-03-05")
  /\ @fmt_date Host.no_tzdata (VStr (u "2024-13-99")) (u "UTC") default_fmt
     = VStr (u "2024-13-99")
  /\ @iso_text (u "2024-03-05T10:00:00" ++ u "+0000")
     = u "2024-03-05T10:00:00" ++ u "+00:00".
Proof.
  destruct (@format_date_total Host.no_tzdata [])
    as (_ & _ & _ & Hiso & Hplain & _).
  destruct (@format_date_total Host.no_tzdata (u "UTC"))
    as (_ & _ & _ & _ & _ & _ & Hraw & _).
  split; [|split].
  - eapply Hplain; [vm_compute; discriminate | vm_compute; reflexivity
                   | now left | vm_compute; reflexivity].
  - apply Hraw; [vm_compute; discriminate | vm_compute; reflexivity].
  - apply Hiso. vm_compute. intros Hin.
    repeat (apply elem_of_cons in Hin as [Hin|Hin]; [discriminate|]).
    now apply elem_of_nil in Hin.
Defined.

Lemma unknown_zone_falls_back_sample :
  @fmt_date Host.no_tzdata (VStr (u "2024-03-05T10:00:00Z"))
    (u "Mars/Olympus") default_fmt
  = VStr (u "2024-03-05T10:00:00Z").
Proof.
  eapply (@unknown_zone_falls_back Host.no_tzdata _ _ _ (fun _ => None)).
  - vm_compute. reflexivity.
  - vm_compute. discriminate.
  - reflexivity.
  - reflexivity.
Defined.

Lemma title_is_exact_between_clean_ends_sample :
  Sample.title = u "PMO-1 — Launch".
Proof.
  rewrite (@title_is_exact_between_clean_ends Host.no_tzdata Sample.issues
             Sample.root Sample.cfg [] Sample.title Sample.body
             (Sample.s "Launch") 80%N 104%N); vm_compute; reflexivity.
Defined.

Lemma raid_bullets_sample :
  [u "Report"] ++ [u "Risks" ++ u ":"]
  ++ bullet_or_none
       (map (@raid_bullet Host.no_tzdata (u "customfield_riskscore") true)
          (List.filter (@open Host.no_tzdata)
             (of_type Sample.by_type (u "InitiativeRisk"))))
  ++ [blank]
  = [u "Report"; u "Risks:"; u "- RSK-1 — Vendor | Status:  | Assignee: Ann";
     blank].
Proof.
  rewrite <- (@raid_bullets_always_show_status Host.no_tzdata Sample.by_type
                Sample.cfg [u "Report"]
                [u "Report"; u "Risks:";
                 u "- RSK-1 — Vendor | Status:  | Assignee: Ann"; blank]
                (u "Risks") (u "InitiativeRisk") (u "customfield_riskscore")
                true); vm_compute; reflexivity.
Defined.

(** ** Further properties of the core *)

(** *** Trimming *)

Lemma dropwhile_head (p : char -> bool) (s : str) (c : char) :
  head (dropwhile p s) = Some c -> p c = false.
Proof.
  induction s as [|a s IH]; simpl; [discriminate|].
  destruct (p a) eqn:Ea; [exact IH|]. simpl. congruence.
Qed.

Lemma dropwhile_split (p : char -> bool) (s : str) :
  exists dropped, s = dropped ++ dropwhile p s.
Proof.
  induction s as [|a s [d IH]]; simpl; [now exists []|].
  destruct (p a); [|now exists []].
  exists (a :: d). simpl. now f_equal.
Qed.

Lemma rstrip_by_last (p : char -> bool) (s : str) (c : char) :
  last (rstrip_by p s) = Some c -> p c = false.
Proof.
  unfold rstrip_by. intros Hlast. apply (dropwhile_head p (rev s)).
  destruct (dropwhile p (rev s)) as [|a t]; [discriminate|].
  simpl in Hlast. now rewrite last_snoc in Hlast.
Qed.

Lemma rstrip_by_prefix (p : char -> bool) (s : str) :
  exists dropped, s = rstrip_by p s ++ dropped.
Proof.
  unfold rstrip_by. destruct (dropwhile_split p (rev s)) as [d Hd].
  exists (rev d). rewrite <- rev_app_distr, <- Hd. now rewrite rev_involutive.
Qed.

Lemma strip_by_head (p : char -> bool) (s : str) (c : char) :
  head (strip_by p s) = Some c -> p c = false.
Proof.
  unfold strip_by, lstrip_by. intros Hhead.
  destruct (rstrip_by_prefix p (dropwhile p s)) as [d Hd].
  apply (dropwhile_head p s). rewrite Hd.
  destruct (rstrip_by p (dropwhile p s)); [discriminate|exact Hhead].
Qed.

Lemma strip_by_last (p : char -> bool) (s : str) (c : char) :
  last (strip_by p s) = Some c -> p c = false.
Proof. apply rstrip_by_last. Qed.

Lemma strip_by_idempotent (p : char -> bool) (s : str) :
  strip_by p (strip_by p s) = strip_by p s.
Proof.
  destruct (strip_by p s) as [|a t] eqn:Es; [reflexivity|].
  destruct (last (a :: t)) as [d|] eqn:El.
  - apply (strip_by_id p _ a d); [reflexivity | exact El | |].
    + apply (strip_by_head p s). now rewrite Es.
    + apply (strip_by_last p s). now rewrite Es.
  - apply last_None in El. discriminate.
Qed.

Lemma filter_none {A} (p : A -> bool) (l : list A) :
  (forall x, p x = false) -> List.filter p l = [].
Proof.
  intros Hp. induction l as [|x l IH]; simpl; [reflexivity|].
  now rewrite Hp.
Qed.

Section Labels.

Context `{Python}.

Lemma call_strip_Ok (v : value) (t : str) :
  call_strip v = Ok t -> exists x, v = VStr x /\ t = strip x.
Proof. destruct v; simpl; try discriminate. intros [= <-]. eauto. Qed.

Lemma issue_type_stripped (it : pydict) (t : str) :
  issue_type it = Ok t -> exists x, t = strip x.
Proof.
  unfold issue_type. intros Ht. returned Ht. returned Ht.
  apply call_strip_Ok in Ht as (x & _ & ->). eauto.
Qed.

Lemma issue_status_name_stripped (it : pydict) (st : str) :
  issue_status_name it = Ok st -> exists x, st = strip x.
Proof.
  unfold issue_status_name. intros Hst. returned Hst. returned Hst.
  destruct (truthy a0).
  - apply call_strip_Ok in Hst as (x & _ & ->). eauto.
  - returned Hst. returned Hst.
    apply call_strip_Ok in Hst as (x & _ & ->). eauto.
Qed.

(** The type label and the status name of a record are trimmed text:
    trimming them again changes nothing, and they neither start nor end with
    a whitespace character. *)
Theorem labels_are_trimmed (it : pydict) (label : str) :
  issue_type it = Ok label \/ issue_status_name it = Ok label ->
  strip label = label
  /\ (forall c, head label = Some c -> isspace c = false)
  /\ (forall c, last label = Some c -> isspace c = false).
Proof.
  intros Hlabel.
  assert (exists x, label = strip x) as [x ->].
  { destruct Hlabel as [Ht|Hs];
      [eapply issue_type_stripped | eapply issue_status_name_stripped]; eauto. }
  split; [apply strip_by_idempotent|]. split; intros c.
  - apply strip_by_head.
  - apply strip_by_last.
Qed.

(** Groups are keyed by trimmed labels, so a type name that trimming would
    change, one with leading or trailing whitespace, names no group: the
    lookup [by_type.get(name, [])] is empty whatever the records are. *)
Theorem padded_type_name_selects_nothing (issues : list pydict)
    (by_type : gmap str (list pydict)) (name : str) :
  group_by_type issues ∅ = Ok by_type ->
  strip name <> name ->
  of_type by_type name = [].
Proof.
  intros Hgroup Hpad. rewrite (group_by_type_empty _ _ name Hgroup).
  apply filter_none. intros it. unfold has_type.
  destruct (issue_type it) as [t|] eqn:Et; [|reflexivity].
  apply bool_decide_eq_false_2. intros ->.
  apply issue_type_stripped in Et as [x ->].
  apply Hpad, strip_by_idempotent.
Qed.

Lemma group_by_type_nonempty (issues : list pydict)
    (m m' : gmap str (list pydict)) :
  group_by_type issues m = Ok m' ->
  (forall t l, m !! t = Some l -> l <> []) ->
  forall t l, m' !! t = Some l -> l <> [].
Proof.
  revert m; induction issues as [|it issues IH]; simpl; intros m Hm Hne.
  - now injection Hm as <-.
  - returned Hm. apply (IH _ Hm). intros t l.
    destruct (decide (a = t)) as [->|Hat].
    + rewrite lookup_insert_eq. intros [= <-].
      now destruct (default [] (m !! t)).
    + rewrite lookup_insert_ne by done. apply Hne.
Qed.

Lemma group_by_type_types (issues : list pydict)
    (m m' : gmap str (list pydict)) :
  group_by_type issues m = Ok m' ->
  Forall (fun it => exists t, issue_type it = Ok t) issues.
Proof.
  revert m; induction issues as [|it issues IH]; simpl; intros m Hm.
  - constructor.
  - returned Hm. constructor; eauto.
Qed.

(** Grouping is a stable partition of the records by exact type label: the
    group of a label is the subsequence of the records carrying it, every
    record is in the group of its own label and in that of no other, and no
    group is empty. *)
Theorem grouping_is_a_stable_partition (issues : list pydict)
    (by_type : gmap str (list pydict)) :
  group_by_type issues ∅ = Ok by_type ->
  (forall t, of_type by_type t = List.filter (has_type t) issues)
  /\ (forall it, it ∈ issues ->
        exists t, issue_type it = Ok t /\ it ∈ of_type by_type t)
  /\ (forall t it, it ∈ of_type by_type t ->
        it ∈ issues /\ issue_type it = Ok t)
  /\ (forall t l, by_type !! t = Some l -> l <> []).
Proof.
  intros Hgroup.
  assert (Hget : forall t, of_type by_type t = List.filter (has_type t) issues).
  { intros t. now apply group_by_type_empty. }
  split; [exact Hget|]. split; [|split].
  - intros it Hin.
    pose proof (group_by_type_types _ _ _ Hgroup) as Htypes.
    rewrite Forall_forall in Htypes. destruct (Htypes it Hin) as [t Ht].
    exists t. split; [exact Ht|]. rewrite Hget.
    apply list_elem_of_In, filter_In. split; [now apply list_elem_of_In|].
    unfold has_type. rewrite Ht. now apply bool_decide_eq_true_2.
  - intros t it Hin. rewrite Hget in Hin.
    apply list_elem_of_In, filter_In in Hin as [Hin Ht].
    split; [now apply list_elem_of_In|]. unfold has_type in Ht.
    destruct (issue_type it) as [t'|]; [|discriminate].
    apply bool_decide_eq_true_1 in Ht. now subst.
  - apply (group_by_type_nonempty _ _ _ Hgroup). intros t l.
    now rewrite lookup_empty.
Qed.

End Labels.

(** *** The root is one of the records *)

Section Root_member.

Lemma index_by_key_member (issues : list pydict) :
  forall m m' : gmap str pydict,
    index_by_key issues m = Ok m' ->
    forall h r, m' !! h = Some r ->
      (r ∈ issues /\ issue_key r = VStr h) \/ m !! h = Some r.
Proof.
  induction issues as [|i issues IH]; simpl; intros m m' Hm h r Hr.
  - injection Hm as <-. now right.
  - destruct (issue_key i) as [| | | |k| |] eqn:Ek; try discriminate;
      try (destruct (IH _ _ Hm h r Hr) as [[Hin Hk]|Hold];
           [left; split; [now apply list_elem_of_further|done] | now right]).
    destruct (IH _ _ Hm h r Hr) as [[Hin Hk]|Hold].
    + left. split; [now apply list_elem_of_further|done].
    + destruct (decide (k = h)) as [->|Hne].
      * rewrite lookup_insert_eq in Hold. injection Hold as <-.
        left. split; [apply list_elem_of_here|done].
      * rewrite lookup_insert_ne in Hold by done. now right.
Qed.

Lemma first_parentless_member (issues : list pydict) (r : pydict) :
  first_parentless issues = Ok (Some r) ->
  r ∈ issues /\ parentless r = true.
Proof.
  induction issues as [|i issues IH]; simpl; [discriminate|].
  intros Hf. apply bind_Ok in Hf as (pk & Hpk & Hf).
  destruct (truthy pk) eqn:Et; simpl in Hf.
  - destruct (IH Hf). split; [now apply list_elem_of_further|done].
  - injection Hf as <-. split; [apply list_elem_of_here|].
    unfold parentless. now rewrite Hpk, Et.
Qed.

(** Whatever the records look like, a root that the resolver returns is one
    of the input records, chosen for one of three reasons: its key is the
    non-empty hint, or it has no parent reference, or it is the first
    record. *)
Theorem root_is_an_input_record (issues : list pydict) (hint : option str)
    (r : pydict) :
  determine_root issues hint = Ok (Some r) ->
  r ∈ issues
  /\ ((exists h, hint = Some h /\ h <> [] /\ issue_key r = VStr h)
      \/ parentless r = true
      \/ head issues = Some r).
Proof.
  unfold determine_root. intros Hd.
  apply bind_Ok in Hd as (by_key & Hindex & Hd).
  destruct (match hint with
            | Some h => if truthy (VStr h) then by_key !! h else None
            | None => None
            end) as [hit|] eqn:Ehit.
  - injection Hd as ->. destruct hint as [h|]; [|discriminate].
    destruct (truthy (VStr h)) eqn:Eh; [|discriminate].
    destruct (index_by_key_member _ _ _ Hindex h r Ehit) as [[Hin Hk]|Hold].
    + split; [done|]. left. exists h. repeat split; try done.
      intros ->. discriminate.
    + now rewrite lookup_empty in Hold.
  - apply bind_Ok in Hd as (found & Hfound & Hd).
    destruct found as [it|].
    + injection Hd as ->.
      destruct (first_parentless_member _ _ Hfound). split; [done|]. tauto.
    + injection Hd as Hhead. split; [|tauto].
      destruct issues as [|i issues]; [discriminate|].
      injection Hhead as ->. apply list_elem_of_here.
Qed.

End Root_member.

(** *** Layout of the report *)

Section Layout_correct.

Context `{Python}.

Lemma filter_all {A} (l : list A) : List.filter (fun _ => true) l = l.
Proof. induction l as [|x l IH]; simpl; congruence. Qed.

Lemma milestone_loop (target_end rag tzname : str) (milestones : list pydict)
    (milestone_lines : list str) :
  foldM (fun milestone_lines m =>
           let key := issue_key m in
           let! summ := field_text m (u "summary") in
           let! target := field_text m target_end in
           let tgt := fmt_date target tzname default_fmt in
           let! rag := field_text m rag in
           Ok (milestone_lines
               ++ [u "- " ++ str_of key ++ u " — " ++ str_of summ
                   ++ u " | Target end: " ++ str_of (por tgt (VStr (u "-")))
                   ++ u " | RAG: " ++ str_of (por rag (VStr (u "-")))]))
        [] milestones = Ok milestone_lines ->
  milestone_lines = map (milestone_bullet target_end rag tzname) milestones.
Proof.
  intros Hloop.
  apply (foldM_append _ (fun _ => true)
           (milestone_bullet target_end rag tzname)) in Hloop.
  - now rewrite filter_all in Hloop.
  - intros acc m acc' Hbody.
    apply bind_Ok in Hbody as (summ & Hsumm & Hbody).
    apply bind_Ok in Hbody as (target & Htarget & Hbody).
    apply bind_Ok in Hbody as (r & Hr & Hbody).
    injection Hbody as <-. unfold milestone_bullet.
    now rewrite (text_Ok _ _ _ Hsumm), (text_Ok _ _ _ Htarget),
      (text_Ok _ _ _ Hr).
Qed.

Lemma upcoming_milestones_Ok (issues : list pydict)
    (by_type : gmap str (list pydict))
    (milestone_type target_end rag tzname : str) (lines : list str) :
  group_by_type issues ∅ = Ok by_type ->
  upcoming_milestones by_type milestone_type target_end rag tzname = Ok lines ->
  lines = bullet_or_none
            (map (milestone_bullet target_end rag tzname)
               (open_of_type issues milestone_type)).
Proof.
  intros Hgroup Hm. unfold upcoming_milestones in Hm.
  apply bind_Ok in Hm as (milestones & Hopen & Hm).
  apply bind_Ok in Hm as (bullets & Hloop & Hm).
  injection Hm as <-. apply filterM_Ok in Hopen. apply milestone_loop in Hloop.
  rewrite (group_by_type_empty _ _ _ Hgroup), filter_filter in Hopen.
  now subst.
Qed.

(** The Upcoming Milestones section lists the open records whose type label
    is exactly the configured milestone type, in input order, one bullet
    "- {key} — {summary} | Target end: {date} | RAG: {rag}" each, with "-"
    for an empty date or RAG; without such a record it is the line "None". *)
Theorem upcoming_milestones_section (issues : list pydict) (root : pydict)
    (cfg : gmap str str) (tz title : str) (lines : list str)
    (milestone_type target_end rag : str) :
  report_lines issues root cfg tz = Ok (title, lines) ->
  cfg !! u "MILESTONE_TYPE_NAME" = Some milestone_type ->
  cfg !! u "MILESTONE_TARGET_END_FIELD" = Some target_end ->
  cfg !! u "MILESTONE_RAG_FIELD" = Some rag ->
  exists weekly rest,
    lines = u "Weekly updates:" :: weekly
            ++ blank :: u "Upcoming Milestones:"
            :: bullet_or_none
                 (map (milestone_bullet target_end rag tz)
                    (open_of_type issues milestone_type))
            ++ blank :: rest.
Proof.
  intros Hr Hmt Hte Hrag.
  apply report_lines_Ok in Hr
    as (? & ? & ? & mt & te & rg & by_type & weekly & milestone_lines & rest
        & _ & _ & _ & Hmt' & Hte' & Hrag' & Hgroup & _ & Hm & _ & Hlines).
  rewrite (cfg_get_Some _ _ _ Hmt) in Hmt'. injection Hmt' as <-.
  rewrite (cfg_get_Some _ _ _ Hte) in Hte'. injection Hte' as <-.
  rewrite (cfg_get_Some _ _ _ Hrag) in Hrag'. injection Hrag' as <-.
  exists weekly, rest. rewrite Hlines.
  now rewrite (upcoming_milestones_Ok _ _ _ _ _ _ _ Hgroup Hm).
Qed.

End Layout_correct.

(** *** The further properties on sample data *)

Lemma labels_are_trimmed_sample :
  @strip Host.no_tzdata (u "Project") = u "Project"
  /\ (forall c, head (u "Project") = Some c ->
        @isspace Host.no_tzdata c = false)
  /\ (forall c, last (u "Project") = Some c ->
        @isspace Host.no_tzdata c = false).
Proof.
  apply (@labels_are_trimmed Host.no_tzdata Sample.p1 (u "Project")).
  left. vm_compute. reflexivity.
Defined.

Lemma padded_type_name_selects_nothing_sample :
  exists by_type,
    @group_by_type Host.no_tzdata Sample.issues ∅ = Ok by_type
    /\ of_type by_type (u " Milestone") = [].
Proof.
  assert (exists by_type,
             @group_by_type Host.no_tzdata Sample.issues ∅ = Ok by_type)
    as [by_type Hgroup].
  { eexists. vm_compute. reflexivity. }
  exists by_type. split; [exact Hgroup|].
  apply (@padded_type_name_selects_nothing Host.no_tzdata Sample.issues
           by_type (u " Milestone") Hgroup).
  vm_compute. discriminate.
Defined.

Lemma grouping_is_a_stable_partition_sample :
  exists by_type,
    @group_by_type Host.no_tzdata Sample.issues ∅ = Ok by_type
    /\ of_type by_type (u "Project") = [Sample.p1; Sample.p2; Sample.p3].
Proof.
  assert (exists by_type,
             @group_by_type Host.no_tzdata Sample.issues ∅ = Ok by_type)
    as [by_type Hgroup].
  { eexists. vm_compute. reflexivity. }
  exists by_type. split; [exact Hgroup|].
  rewrite (proj1 (@grouping_is_a_stable_partition Host.no_tzdata
                    Sample.issues by_type Hgroup)).
  vm_compute. reflexivity.
Defined.

Lemma root_is_an_input_record_sample : Sample.p2 ∈ Sample.issues.
Proof.
  apply (proj1 (root_is_an_input_record Sample.issues (Some (u "PRJ-2"))
                  Sample.p2 eq_refl)).
Defined.

Lemma upcoming_milestones_section_sample :
  exists weekly rest,
    Sample.lines
    = u "Weekly updates:" :: weekly
      ++ blank :: u "Upcoming Milestones:"
      :: bullet_or_none
           (map (@milestone_bullet Host.no_tzdata (u "duedate")
                   (u "customfield_rag") [])
              (@open_of_type Host.no_tzdata Sample.issues (u "Milestone")))
      ++ blank :: rest.
Proof.
  apply (@upcoming_milestones_section Host.no_tzdata Sample.issues Sample.root
           Sample.cfg [] Sample.title);
    vm_compute; reflexivity.
Defined.

Lemma milestone_bullets_of_sample :
  map (@milestone_bullet Host.no_tzdata (u "duedate") (u "customfield_rag") [])
    (@open_of_type Host.no_tzdata Sample.issues (u "Milestone"))
  = [u "- MS-1 — Go live | Target end: 2024-13-99 | RAG: Amber";
     u "- MS-2 — Pilot | Target end: 2024-12-01 | RAG: -"].
Proof. vm_compute. reflexivity. Qed.

(** *** The RAID part of the report *)

Section Raid_part.

Context `{Python}.

Lemma section_Ok (issues : list pydict) (by_type : gmap str (list pydict))
    (cfg : gmap str str) (lines lines' : list str)
    (header type_name risk_field : str) (with_risk : bool) :
  group_by_type issues ∅ = Ok by_type ->
  cfg !! u "RISK_SCORE_FIELD" = Some risk_field ->
  section by_type cfg lines header type_name
    (if with_risk then risk_cols else raid_cols) = Ok lines' ->
  lines' = lines ++ raid_section issues header type_name risk_field with_risk.
Proof.
  intros Hgroup Hrisk Hs. unfold section in Hs.
  apply bind_Ok in Hs as (items & Hitems & Hs).
  apply bind_Ok in Hs as (rows & Hrows & Hs).
  injection Hs as <-. apply filterM_Ok in Hitems.
  rewrite (group_by_type_empty _ _ _ Hgroup), filter_filter in Hitems.
  apply (foldM_append _ (fun _ => true) (raid_bullet risk_field with_risk))
    in Hrows.
  - rewrite filter_all in Hrows. subst rows items.
    change ([] ++ ?l) with l. unfold raid_section, open_of_type, open.
    rewrite <- !app_assoc. reflexivity.
  - intros acc it acc' Hbody.
    apply bind_Ok in Hbody as (extra & Hextra & Hbody).
    apply bind_Ok in Hbody as (row & Hrow & Hbody).
    injection Hbody as <-. do 2 f_equal.
    apply (extras_of_columns _ _ _ _ _ Hrisk) in Hextra.
    unfold format_item in Hrow.
    apply bind_Ok in Hrow as (summary & Hsummary & Hrow).
    injection Hrow as <-. subst extra. unfold raid_bullet.
    rewrite (text_Ok _ _ _ Hsummary). do 3 f_equal.
    destruct (with_risk && truthy (text it risk_field)),
      (truthy (text it (u "assignee"))); reflexivity.
Qed.

Lemma raid_sections_Ok (issues : list pydict)
    (by_type : gmap str (list pydict)) (cfg : gmap str str)
    (lines lines' : list str) (risk_field t1 t2 t3 t4 t5 : str) :
  group_by_type issues ∅ = Ok by_type ->
  cfg !! u "RISK_SCORE_FIELD" = Some risk_field ->
  raid_sections by_type cfg lines t1 t2 t3 t4 t5 = Ok lines' ->
  lines' = lines ++ raid_part issues risk_field t1 t2 t3 t4 t5.
Proof.
  intros Hgroup Hrisk Hs. unfold raid_sections in Hs.
  apply bind_Ok in Hs as (l1 & H1 & Hs).
  apply bind_Ok in Hs as (l2 & H2 & Hs).
  apply bind_Ok in Hs as (l3 & H3 & Hs).
  apply bind_Ok in Hs as (l4 & H4 & Hs).
  apply (section_Ok issues _ _ _ _ _ _ risk_field true Hgroup Hrisk) in H1.
  apply (section_Ok issues _ _ _ _ _ _ risk_field false Hgroup Hrisk) in H2.
  apply (section_Ok issues _ _ _ _ _ _ risk_field false Hgroup Hrisk) in H3.
  apply (section_Ok issues _ _ _ _ _ _ risk_field false Hgroup Hrisk) in H4.
  apply (section_Ok issues _ _ _ _ _ _ risk_field false Hgroup Hrisk) in Hs.
  subst. unfold raid_part. now rewrite <- !app_assoc.
Qed.

(** Whenever the renderer returns, the report is the Weekly updates section,
    the Upcoming Milestones section and then the five RAID sections Risks,
    Assumptions, Issues, Decisions and Change requests, in this order and
    each closed by a blank line.  The RAID sections are built from the
    records and the configuration alone: they are the same for an initiative
    root and for any other root, and for every time zone. *)
Theorem report_sections_in_fixed_order (issues : list pydict) (root : pydict)
    (cfg : gmap str str) (tz title : str) (lines : list str)
    (risk_field init_risk_type assumption_type issue_t decision_t
       change_req_t : str) :
  report_lines issues root cfg tz = Ok (title, lines) ->
  cfg !! u "RISK_SCORE_FIELD" = Some risk_field ->
  cfg !! u "INITIATIVE_RISK_TYPE_NAME" = Some init_risk_type ->
  cfg !! u "ASSUMPTION_TYPE_NAME" = Some assumption_type ->
  cfg !! u "ISSUE_TYPE_NAME" = Some issue_t ->
  cfg !! u "DECISION_TYPE_NAME" = Some decision_t ->
  cfg !! u "CHANGE_REQ_TYPE_NAME" = Some change_req_t ->
  exists weekly milestones,
    lines = u "Weekly updates:" :: weekly
            ++ blank :: u "Upcoming Milestones:" :: milestones
            ++ blank :: raid_part issues risk_field init_risk_type
                          assumption_type issue_t decision_t change_req_t.
Proof.
  intros Hr Hrisk Hirt Hat Hit Hdt Hct. unfold report_lines in Hr.
  apply bind_Ok in Hr as (root_type & _ & Hr).
  apply bind_Ok in Hr as (root_summary & _ & Hr).
  do 4 (apply bind_Ok in Hr as (? & _ & Hr)).
  rewrite (cfg_get_Some _ _ _ Hirt), bind_ret, (cfg_get_Some _ _ _ Hat),
    bind_ret, (cfg_get_Some _ _ _ Hit), bind_ret, (cfg_get_Some _ _ _ Hdt),
    bind_ret, (cfg_get_Some _ _ _ Hct), bind_ret in Hr.
  apply bind_Ok in Hr as (by_type & Hgroup & Hr).
  apply bind_Ok in Hr as (weekly & _ & Hr).
  apply bind_Ok in Hr as (milestones & _ & Hr).
  apply bind_Ok in Hr as (initiative & _ & Hr).
  apply bind_Ok in Hr as (final & Hraid & Hr).
  injection Hr as _ Hl. subst lines. exists weekly, milestones.
  assert (Hfinal : raid_sections by_type cfg
                     (((((([] ++ [u "Weekly updates:"]) ++ weekly) ++ [blank])
                        ++ [u "Upcoming Milestones:"]) ++ milestones)
                      ++ [blank])
                     init_risk_type assumption_type issue_t decision_t
                     change_req_t = Ok final).
  { now destruct (bool_decide _) in Hraid. }
  rewrite (raid_sections_Ok _ _ _ _ _ _ _ _ _ _ _ Hgroup Hrisk Hfinal).
  simpl. rewrite <- !app_assoc. reflexivity.
Qed.

End Raid_part.

(** *** Case-tolerant field lookup *)

Section Lookup.

Context `{Python}.

Lemma field_found (issue f : pydict) (key : str) :
  por (get_or issue (u "fields") empty_dict) empty_dict = VDict f ->
  has_key f key = true ->
  field issue key = Ok (get f key).
Proof.
  intros Hf Hk. unfold field. rewrite Hf. cbn [contains]. now rewrite Hk.
Qed.

(** On a record whose [fields] entry is a mapping, a field name is looked up
    as given first: a key spelled exactly so wins, whether or not its
    lower-cased spelling is a key too.  Only when the name as given is no key
    is the lower-cased name tried, and then the lookup gives just what the
    lookup of the lower-cased name gives; when neither is a key the value is
    absent and its text is the empty string. *)
Theorem field_lookup_tolerates_case (issue f : pydict) (key : str) :
  por (get_or issue (u "fields") empty_dict) empty_dict = VDict f ->
  (has_key f key = true -> field issue key = Ok (get f key))
  /\ (has_key f key = false -> has_key f (lower key) = true ->
      field issue key = Ok (get f (lower key))
      /\ field issue key = field issue (lower key)
      /\ field_text issue key = field_text issue (lower key))
  /\ (has_key f key = false -> has_key f (lower key) = false ->
      field issue key = Ok VNone /\ field_text issue key = Ok empty_str).
Proof.
  intros Hf. split; [now apply field_found|]. split.
  - intros Hk Hl.
    assert (Hfield : field issue key = Ok (get f (lower key))).
    { unfold field. rewrite Hf. cbn [contains]. rewrite Hk, bind_ret.
      cbn [bind]. now rewrite Hl. }
    pose proof (field_found issue f (lower key) Hf Hl) as Hlower.
    split; [exact Hfield|]. split; [congruence|].
    unfold field_text. now rewrite Hfield, Hlower.
  - intros Hk Hl.
    assert (Hfield : field issue key = Ok VNone).
    { unfold field. rewrite Hf. cbn [contains]. rewrite Hk, bind_ret.
      cbn [bind]. now rewrite Hl. }
    split; [exact Hfield|]. unfold field_text. now rewrite Hfield.
Qed.

End Lookup.

Lemma report_sections_in_fixed_order_sample :
  exists weekly milestones,
    Sample.lines
    = u "Weekly updates:" :: weekly
      ++ blank :: u "Upcoming Milestones:" :: milestones
      ++ blank :: @raid_part Host.no_tzdata Sample.issues
                    (u "customfield_riskscore") (u "InitiativeRisk")
                    (u "Assumption") (u "Issue") (u "Decision")
                    (u "Change req").
Proof.
  apply (@report_sections_in_fixed_order Host.no_tzdata Sample.issues
           Sample.root Sample.cfg [] Sample.title);
    vm_compute; reflexivity.
Defined.

Lemma raid_part_of_sample :
  @raid_part Host.no_tzdata Sample.issues (u "customfield_riskscore")
    (u "InitiativeRisk") (u "Assumption") (u "Issue") (u "Decision")
    (u "Change req")
  = [u "Risks:"; u "- RSK-1 — Vendor | Status:  | Assignee: Ann"; blank;
     u "Assumptions:"; u "None"; blank; u "Issues:"; u "None"; blank;
     u "Decisions:"; u "None"; blank; u "Change requests:"; u "None"; blank].
Proof. vm_compute. reflexivity. Qed.

Lemma field_lookup_tolerates_case_sample :
  @field_text Host.no_tzdata Sample.p1 (u "Summary")
  = @field_text Host.no_tzdata Sample.p1 (u "summary")
  /\ @field_text Host.no_tzdata Sample.p1 (u "Summary") = Ok (Sample.s "Alpha").
Proof.
  assert (exists f, por (get_or Sample.p1 (u "fields") empty_dict) empty_dict
                    = VDict f) as [f Hf].
  { eexists. vm_compute. reflexivity. }
  destruct (@field_lookup_tolerates_case Host.no_tzdata Sample.p1 f
              (u "Summary") Hf) as (_ & Hlower & _).
  destruct Hlower as (_ & _ & Htext).
  - injection Hf as <-. vm_compute. reflexivity.
  - injection Hf as <-. vm_compute. reflexivity.
  - split; [exact Htext|]. rewrite Htext. vm_compute. reflexivity.
Defined.

Lemma field_text_shapes_sample :
  @field_text Host.no_tzdata Sample.r1 (u "assignee") = Ok (Sample.s "Ann")
  /\ @field_text Host.no_tzdata Sample.r1 (u "duedate") = Ok empty_str.
Proof.
  assert (exists f, por (get_or Sample.r1 (u "fields") empty_dict) empty_dict
                    = VDict f) as [f Hf].
  { eexists. vm_compute. reflexivity. }
  destruct (@field_text_shapes Host.no_tzdata Sample.r1 f (u "assignee") Hf)
    as [_ Hpresent].
  destruct (@field_text_shapes Host.no_tzdata Sample.r1 f (u "duedate") Hf)
    as [Habsent _].
  injection Hf as <-. split.
  - apply Hpresent. vm_compute. reflexivity.
  - apply Habsent; vm_compute; reflexivity.
Defined.

(** ** Properties of the collaborators *)

(** *** Flags, field detection and the requested fields *)

Section Fields_correct.

Context `{Python}.

(** For a value that is set, [parse_bool] looks at the trimmed, lower-cased
    text only: padding the value with whitespace changes nothing, the default
    is not consulted, and the result is true exactly for "1", "true", "yes",
    "y" and "on".  The default is the answer only when the value is [None]. *)
Theorem parse_bool_ignores_padding (s : str) (d d' : bool) :
  parse_bool (Some s) d = parse_bool (Some (strip s)) d'
  /\ (parse_bool (Some s) d = true <->
      lower (strip s) = u "1" \/ lower (strip s) = u "true"
      \/ lower (strip s) = u "yes" \/ lower (strip s) = u "y"
      \/ lower (strip s) = u "on")
  /\ parse_bool None d = d.
Proof.
  split; [|split; [|reflexivity]].
  - unfold parse_bool, strip. now rewrite strip_by_idempotent.
  - unfold parse_bool, true_words. rewrite bool_decide_eq_true.
    rewrite !elem_of_union, !elem_of_singleton. tauto.
Qed.

Lemma detect_loop (known_ids known_names : gset str) (requested out : list str) :
  fold_left
    (fun out f =>
       if negb (truthy (VStr f)) then out
       else if bool_decide (f ∈ known_ids) || bool_decide (f ∈ known_names)
            then out ++ [f]
            else out ++ [f])
    requested out
  = out ++ List.filter (fun f => truthy (VStr f)) requested.
Proof.
  revert out; induction requested as [|f requested IH]; intros out;
    cbn [fold_left List.filter].
  - now rewrite app_nil_r.
  - rewrite IH. destruct (truthy (VStr f)); cbn [negb]; [|reflexivity].
    destruct (_ || _); now rewrite <- app_assoc.
Qed.

Lemma collect_ids (fs : list value) (acc : gset str) :
  Forall field_entry fs ->
  exists ids, collect (fun f => subscript f (u "id")) fs acc = Ok ids.
Proof.
  intros Hfs; revert acc; induction Hfs as [|f fs (d & id & -> & Hid & _) _ IH];
    intros acc; simpl; [eauto|].
  rewrite Hid. simpl. apply IH.
Qed.

Lemma collect_names (fs : list value) (acc : gset str) :
  Forall field_entry fs ->
  exists names,
    collect (fun f => let! name := call_get f (u "name") in
                      Ok (por name empty_str)) fs acc = Ok names.
Proof.
  intros Hfs; revert acc;
    induction Hfs as [|f fs (d & id & -> & _ & Hname) _ IH];
    intros acc; cbn [collect]; [eauto|].
  rewrite call_get_dict, bind_ret.
  destruct Hname as [[name ->]| ->]; unfold por; simpl.
  - destruct (bool_decide (name = [])); simpl; apply IH.
  - apply IH.
Qed.

(** Detection changes nothing but empty names: whenever [detect_fields]
    returns, its result is the requested list without its empty strings, in
    the same order, whatever the metadata says; known and unknown names are
    passed on alike.  On metadata that is a list of well-formed entries it
    does return. *)
Theorem detect_fields_passes_requests_through (requested : list str)
    (all_fields : value) :
  (forall out, detect_fields requested all_fields = Ok out ->
     out = List.filter (fun f => truthy (VStr f)) requested)
  /\ (forall fs, all_fields = VList fs -> Forall field_entry fs ->
        detect_fields requested all_fields
        = Ok (List.filter (fun f => truthy (VStr f)) requested)).
Proof.
  split.
  - intros out Hd. unfold detect_fields in Hd.
    apply bind_Ok in Hd as (fs & _ & Hd).
    apply bind_Ok in Hd as (ids & _ & Hd).
    apply bind_Ok in Hd as (names & _ & Hd).
    injection Hd as <-. apply detect_loop.
  - intros fs -> Hfs. unfold detect_fields. simpl iterate. rewrite bind_ret.
    destruct (collect_ids fs ∅ Hfs) as [ids ->]. rewrite bind_ret.
    destruct (collect_names fs ∅ Hfs) as [names ->]. rewrite bind_ret.
    now rewrite detect_loop.
Qed.

Lemma collect_missing_id (fs rest : list value) (d : pydict) (acc : gset str) :
  Forall field_entry fs ->
  lookup_item d (u "id") = None ->
  collect (fun f => subscript f (u "id")) (fs ++ VDict d :: rest) acc
  = Raise KeyError.
Proof.
  intros Hfs Hd; revert acc;
    induction Hfs as [|f fs (d' & id & -> & Hid & _) _ IH]; intros acc; simpl.
  - now rewrite Hd.
  - rewrite Hid. simpl. apply IH.
Qed.

(** One metadata entry without an [id], after any number of well-formed
    entries, makes [detect_fields] raise [KeyError], whatever was requested,
    an empty request included. *)
Theorem detect_fields_needs_every_id (requested : list str)
    (fs rest : list value) (d : pydict) :
  Forall field_entry fs ->
  lookup_item d (u "id") = None ->
  detect_fields requested (VList (fs ++ VDict d :: rest)) = Raise KeyError.
Proof.
  intros Hfs Hd. unfold detect_fields. simpl iterate. rewrite bind_ret.
  now rewrite (collect_missing_id _ _ _ _ Hfs Hd).
Qed.



End Fields_correct.

Lemma detect_fields_passes_requests_through_sample :
  detect_fields [u "summary"; []; u "customfield_x"]
    (VList [VDict [(u "id", Sample.s "summary"); (u "name", Sample.s "Summary")]])
  = Ok [u "summary"; u "customfield_x"].
Proof.
  rewrite (proj2 (detect_fields_passes_requests_through
                    [u "summary"; []; u "customfield_x"] _) _ eq_refl).
  - vm_compute. reflexivity.
  - repeat constructor. eexists _, (u "summary"). split; [reflexivity|].
    split; [vm_compute; reflexivity|]. left. eexists. vm_compute. reflexivity.
Defined.

Lemma detect_fields_needs_every_id_sample :
  detect_fields []
    (VList ([VDict [(u "id", Sample.s "summary")]]
            ++ VDict [(u "name", Sample.s "Status")] :: []))
  = Raise KeyError.
Proof.
  apply detect_fields_needs_every_id.
  - repeat constructor. eexists _, (u "summary"). split; [reflexivity|].
    split; [vm_compute; reflexivity|]. right. vm_compute. reflexivity.
  - vm_compute. reflexivity.
Defined.


(** *** When the conversion is not called *)

(** With an empty zone argument, and on a host where the [zoneinfo] import
    failed, [build_report] never calls [astimezone]: the report is the same
    whatever that method would do, and so whatever the local zone of the
    process is. *)
Theorem report_without_zone_ignores_conversion (P : Python)
    (f : @datetime P -> @tzinfo P -> option (@datetime P))
    (issues : list pydict) (root : pydict) (cfg : gmap str str) (tz : str) :
  tz = [] \/ @ZoneInfo P = None ->
  @build_report (with_astimezone P f) issues root cfg tz
  = @build_report P issues root cfg tz.
Proof.
  intros [Htz | Hzone].
  - subst tz. reflexivity.
  - destruct P as [lo sp re dt tzi parse zone conv fmt]. cbn in Hzone, f.
    subst zone. reflexivity.
Qed.

Lemma report_without_zone_ignores_conversion_sample :
  @build_report (Host.located 540) [Sample.root; Sample.m_dated] Sample.root
    Sample.cfg []
  = @build_report (Host.located 0) [Sample.root; Sample.m_dated] Sample.root
      Sample.cfg [].
Proof.
  apply (report_without_zone_ignores_conversion (Host.located 0)
           (@astimezone (Host.located 540))).
  left. reflexivity.
Defined.

(** ** Properties of the retrieval *)

Lemma iterate_len (batch : value) (items : list value) :
  iterate batch = Ok items -> len batch = Ok (Z.of_nat (length items)).
Proof.
  destruct batch; try discriminate; intros Hi; injection Hi as <-; cbn;
    now rewrite ?length_map.
Qed.

Lemma iterate_truthy (batch : value) (items : list value) :
  iterate batch = Ok items -> truthy batch = true -> (1 <= length items)%nat.
Proof.
  destruct batch as [| | | | s|l|d]; try discriminate; intros Hi Ht;
    injection Hi as <-; cbn in Ht; rewrite ?length_map.
  - destruct s; [discriminate|cbn; lia].
  - destruct l; [discriminate|cbn; lia].
  - destruct d; [discriminate|cbn; lia].
Qed.

Section Retrieval_correct.

Context {world : Type}.
Variable post : world -> Http.search -> world * option Http.response.
Variables base email token jql : str.
Variable fields : list str.
Variables max_issues batch_size : Z.

Abbreviation loop := (search_loop post base email token jql fields max_issues
                    batch_size).

(** What one turn of the loop does, by cases. *)
Lemma search_loop_turn (fuel : nat) (w : world) (out : list value)
    (start_at : Z) (res : Http.outcome (list value) * world) :
  loop fuel w out start_at = Some res ->
  ((max_issues <= Z.of_nat (length out))%Z /\ res = (Http.Returns out, w))
  \/ ((Z.of_nat (length out) < max_issues)%Z
      /\ exists fuel' w' reply,
           fuel = S fuel'
           /\ post w (page_request base email token jql fields max_issues
                        batch_size out start_at) = (w', reply)
           /\ ((reply = None /\ res = (Http.Fails Http.RequestException, w'))
               \/ exists r, reply = Some r
                  /\ ((exists f, batch_of r = Http.Fails f
                                 /\ res = (Http.Fails f, w'))
                      \/ exists batch, batch_of r = Http.Returns batch
                         /\ ((exists e, iterate batch = Raise e
                                /\ res = (Http.Fails (Http.Core e), w'))
                             \/ exists items, iterate batch = Ok items
                                /\ ((truthy batch = false
                                     /\ res = (Http.Returns (out ++ items), w'))
                                    \/ (truthy batch = true
                                        /\ loop fuel' w' (out ++ items)
                                             (start_at
                                              + Z.of_nat (length items))
                                           = Some res)))))).
Proof.
  destruct fuel as [|fuel]; cbn [search_loop];
    destruct (Z.ltb_spec (Z.of_nat (length out)) max_issues) as [Hlt|Hge];
    try discriminate; try (intros [= <-]; left; split; [lia|reflexivity]).
  intros Hres. right. split; [exact Hlt|].
  destruct (post w _) as [w' reply] eqn:Hpost. exists fuel, w', reply.
  split; [reflexivity|]. split; [reflexivity|].
  destruct reply as [r|]; [right; exists r; split; [reflexivity|]
                          |left; split; [reflexivity|congruence]].
  destruct (batch_of r) as [batch|f];
    [right; exists batch; split; [reflexivity|]
    |left; exists f; split; [reflexivity|congruence]].
  destruct (iterate batch) as [items|e] eqn:Hi;
    [right; exists items; split; [reflexivity|]
    |left; exists e; split; [reflexivity|congruence]].
  destruct (truthy batch); cbn [negb] in Hres.
  - right. split; [reflexivity|].
    now rewrite (iterate_len _ _ Hi) in Hres.
  - left. split; [reflexivity|congruence].
Qed.

End Retrieval_correct.
